(** * Social Data Insights dashboard (final-app.py)

    A shallow embedding of the dashboard script: the pandas operations it
    uses on its town table (column lookup, column arithmetic, column
    assignment, row slicing, boolean filtering, melting), the chart
    descriptions it hands to the plotting library, and the script itself as
    a state-passing program over the variable [df] and the page of charts
    displayed so far.  The introduction of the page (lines 9-52: text and
    the summary statistics) draws no chart and is left out. *)

From Stdlib Require Import ZArith QArith Qfield Lia Lqa Bool List String Ascii.
From Stdlib Require Import FinFun.
From Stdlib Require Import Floats.
Import ListNotations.

Close Scope Q_scope.
Open Scope string_scope.
Open Scope list_scope.

Set Implicit Arguments.

(** ** Arithmetic of numeric cells

    The script never names its numeric type: it writes [1.5 * col + 5 * col]
    and pandas computes in binary64.  The operations are kept abstract here
    and interpreted twice below: by the IEEE-754 binary64 numbers of the
    kernel ([Binary64]) and by exact rationals with an undefined element
    ([ExactArith]). *)

Class Arith (F : Type) := {
  fadd : F -> F -> F;
  fmul : F -> F -> F;
  fdiv : F -> F -> F;
  (** the missing-value marker pandas fills in (NaN) *)
  fnan : F;
  (** the value of an integer literal such as [5] *)
  of_int : Z -> F;
  (** the value of the literal [1.5] *)
  lit_1_5 : F
}.

(** ** Exceptions *)

Inductive exn :=
| KeyError (key : string)
| TypeError
| IndexError
| ValueError
| StreamlitAPIException.

Inductive result (A : Type) :=
| Ok (a : A)
| Raise (e : exn).

Arguments Ok {A} a.
Arguments Raise {A} e.

Definition rbind {A B} (r : result A) (k : A -> result B) : result B :=
  match r with
  | Ok a => k a
  | Raise e => Raise e
  end.

Notation "'let*' x ':=' e 'in' k" := (rbind e (fun x => k))
  (at level 10, x name, e at level 100, k at level 200).

Fixpoint mapM {A B} (f : A -> result B) (l : list A) : result (list B) :=
  match l with
  | [] => Ok []
  | a :: l' =>
      let* b := f a in
      let* bs := mapM f l' in
      Ok (b :: bs)
  end.

(** ** Python helpers *)

Fixpoint zip_with {A B C} (f : A -> B -> C) (xs : list A) (ys : list B)
  : list C :=
  match xs, ys with
  | x :: xs', y :: ys' => f x y :: zip_with f xs' ys'
  | _, _ => []
  end.

(** [s[:n]] for a list: the first [n] elements, or all but the last [-n]
    when [n] is negative. *)
Definition slice_to {A} (l : list A) (n : Z) : list A :=
  if (0 <=? n)%Z then firstn (Z.to_nat n) l
  else firstn (List.length l - Z.to_nat (- n)) l.

(** Characters removed by [str.strip()] (the ASCII ones). *)
Definition is_space (c : ascii) : bool :=
  let n := nat_of_ascii c in
  ((9 <=? n)%nat && (n <=? 13)%nat) || ((28 <=? n)%nat && (n <=? 32)%nat).

Fixpoint lstrip (s : string) : string :=
  match s with
  | EmptyString => EmptyString
  | String c s' => if is_space c then lstrip s' else s
  end.

Fixpoint rstrip (s : string) : string :=
  match s with
  | EmptyString => EmptyString
  | String c s' =>
      match rstrip s' with
      | EmptyString => if is_space c then EmptyString else String c EmptyString
      | r => String c r
      end
  end.

Definition strip (s : string) : string := rstrip (lstrip s).

(** ** Widget state

    The values the widgets return in one run of the script: the slider, the
    multiselect of towns to annotate, the form of the pie chart (its
    dropdown and its submit button), the multiselect of categories and the
    radio button of the age group.  What the widgets themselves guarantee (a
    multiselect returns distinct members of its options) is stated as a
    hypothesis where a property needs it. *)

Record Widgets := {
  num_towns : Z;
  selected_towns : list string;
  selected_town : string;
  submit_button : bool;
  selected_columns : list string;
  age_group : string
}.

(** The default of the town multiselect (line 103). *)
Definition default_towns : list string :=
  ["Aain El Saydeh"; "Aabadiyeh"; "Aachqout"; "Khreibet Baabda"; "Aabdine";
   "Fourzol"].

Section Frames.

Context {F : Type} `{Arith F}.

(** ** Tables

    A cell is a string or a number; a missing value is the number [fnan],
    as in pandas.  A Series is the list of its cells in index order (every
    Series of the script has the default index 0, 1, 2, ... or a prefix of
    it), and a DataFrame is the list of its named columns, in order. *)

Inductive value :=
| VStr (s : string)
| VNum (x : F).

Definition Series := list value.

Definition DataFrame := list (string * Series).

(** Number of rows: the length of the frame's index, read off its first
    column. *)
Definition nrows (df : DataFrame) : nat :=
  match df with
  | [] => 0
  | (_, s) :: _ => List.length s
  end.

(** The columns of a frame share its index. *)
Definition well_formed (df : DataFrame) : Prop :=
  Forall (fun c => List.length (snd c) = nrows df) df.

(** [df[name]] *)
Fixpoint getitem (df : DataFrame) (name : string) : result Series :=
  match df with
  | [] => Raise (KeyError name)
  | (c, s) :: rest => if String.eqb c name then Ok s else getitem rest name
  end.

(** [df[[n1, n2, ...]]] *)
Definition select (df : DataFrame) (names : list string) : result DataFrame :=
  mapM (fun n => let* s := getitem df n in Ok (n, s)) names.

(** [s.reindex(range(n))]: labels beyond the Series are filled with NaN,
    labels beyond [n] are dropped. *)
Definition reindex (n : nat) (s : Series) : Series :=
  firstn n s ++ repeat (VNum fnan) (n - List.length s).

Fixpoint replace_column (df : DataFrame) (name : string) (s : Series)
  : DataFrame :=
  match df with
  | [] => [(name, s)]
  | (c, old) :: rest =>
      if String.eqb c name then (c, s) :: rest
      else (c, old) :: replace_column rest name s
  end.

(** [df[name] = s]: the Series is aligned to the frame's index; an existing
    column is overwritten in place, a new one is appended.  A frame without
    columns takes the index of the Series. *)
Definition setitem (df : DataFrame) (name : string) (s : Series) : DataFrame :=
  match df with
  | [] => [(name, s)]
  | _ :: _ => replace_column df name (reindex (nrows df) s)
  end.

(** [pd.DataFrame({n1: s1, n2: s2, ...})] from Series: the index is the
    union of the Series' indexes. *)
Definition DataFrame_of_dict (d : list (string * Series)) : DataFrame :=
  let n := fold_right (fun c m => Nat.max (List.length (snd c)) m) 0 d in
  map (fun c => (fst c, reindex n (snd c))) d.

(** [df.columns = df.columns.str.strip()] *)
Definition strip_columns (df : DataFrame) : DataFrame :=
  map (fun c => (strip (fst c), snd c)) df.

(** ** Column arithmetic

    Arithmetic is cell by cell on aligned Series.  Only numeric cells are
    modelled: an operation that meets a string raises [TypeError], the
    exception the formula of the script ends in when a bucket cell is a
    string next to a number. *)

Definition cell_op (f : F -> F -> F) (a b : value) : result value :=
  match a, b with
  | VNum x, VNum y => Ok (VNum (f x y))
  | _, _ => Raise TypeError
  end.

(** Index alignment of two Series: a label missing on one side is NaN. *)
Fixpoint align (xs ys : Series) : list (value * value) :=
  match xs, ys with
  | [], _ => map (fun y => (VNum fnan, y)) ys
  | _, [] => map (fun x => (x, VNum fnan)) xs
  | x :: xs', y :: ys' => (x, y) :: align xs' ys'
  end.

Definition series_op (f : F -> F -> F) (xs ys : Series) : result Series :=
  mapM (fun p => cell_op f (fst p) (snd p)) (align xs ys).

(** [k * s] for a scalar [k] *)
Definition scalar_mul (k : F) (s : Series) : result Series :=
  mapM (cell_op fmul (VNum k)) s.

Definition series_add := series_op fadd.
Definition series_div := series_op fdiv.

(** ** Metric deriver *)

Definition bucket_1_3 : string := "Average family size - 1 to 3 members".
Definition bucket_4_6 : string := "Average family size - 4 to 6 members".
Definition bucket_7_up : string := "Average family size - 7 or more members".
Definition avg_col : string := "Average family size".

(** Lines 89-97: the first computation of the derived column, in Python's
    evaluation order. *)
Definition average_family_size_1 (df : DataFrame) : result DataFrame :=
  let* b1 := getitem df bucket_1_3 in
  let* t1 := scalar_mul lit_1_5 b1 in
  let* b2 := getitem df bucket_4_6 in
  let* t2 := scalar_mul (of_int 5) b2 in
  let* n12 := series_add t1 t2 in
  let* b3 := getitem df bucket_7_up in
  let* t3 := scalar_mul (of_int 7) b3 in
  let* num := series_add n12 t3 in
  let* d1 := getitem df bucket_1_3 in
  let* d2 := getitem df bucket_4_6 in
  let* d12 := series_add d1 d2 in
  let* d3 := getitem df bucket_7_up in
  let* den := series_add d12 d3 in
  let* q := series_div num den in
  Ok (setitem df avg_col q).

(** Lines 214-222: the second computation, in the last chart section. *)
Definition average_family_size_2 (df : DataFrame) : result DataFrame :=
  let* b1 := getitem df "Average family size - 1 to 3 members" in
  let* t1 := scalar_mul lit_1_5 b1 in
  let* b2 := getitem df "Average family size - 4 to 6 members" in
  let* t2 := scalar_mul (of_int 5) b2 in
  let* n12 := series_add t1 t2 in
  let* b3 := getitem df "Average family size - 7 or more members" in
  let* t3 := scalar_mul (of_int 7) b3 in
  let* num := series_add n12 t3 in
  let* d1 := getitem df "Average family size - 1 to 3 members" in
  let* d2 := getitem df "Average family size - 4 to 6 members" in
  let* d12 := series_add d1 d2 in
  let* d3 := getitem df "Average family size - 7 or more members" in
  let* den := series_add d12 d3 in
  let* q := series_div num den in
  Ok (setitem df "Average family size" q).

(** The value the formula gives to one town, from its three buckets. *)
Definition weighted_mean (b1 b2 b3 : F) : F :=
  fdiv (fadd (fadd (fmul lit_1_5 b1) (fmul (of_int 5) b2))
             (fmul (of_int 7) b3))
       (fadd (fadd b1 b2) b3).

(** The derived column, as a list, from the three bucket columns. *)
Definition derived_column (l1 l2 l3 : list F) : list F :=
  zip_with fdiv
    (zip_with fadd
       (zip_with fadd (map (fmul lit_1_5) l1) (map (fmul (of_int 5)) l2))
       (map (fmul (of_int 7)) l3))
    (zip_with fadd (zip_with fadd l1 l2) l3).

(** ** View selector *)

(** [s == t] against a string: a numeric cell (NaN included) is never equal
    to a string. *)
Definition value_eq_str (v : value) (t : string) : bool :=
  match v with
  | VStr s => String.eqb s t
  | VNum _ => false
  end.

Definition eq_mask (s : Series) (t : string) : list bool :=
  map (fun v => value_eq_str v t) s.

Fixpoint mask_select {A} (mask : list bool) (l : list A) : list A :=
  match mask, l with
  | b :: mask', a :: l' =>
      if b then a :: mask_select mask' l' else mask_select mask' l'
  | _, _ => []
  end.

(** [df[mask]] for a boolean Series over the frame's index *)
Definition filter_rows (df : DataFrame) (mask : list bool) : DataFrame :=
  map (fun c => (fst c, mask_select mask (snd c))) df.

(** A row taken out of a frame: one cell per column name. *)
Definition Row := list (string * value).

(** [df.iloc[0]] *)
Definition iloc0 (df : DataFrame) : result Row :=
  match nrows df with
  | O => Raise IndexError
  | S _ => Ok (map (fun c => (fst c, hd (VNum fnan) (snd c))) df)
  end.

(** [row[name]] *)
Fixpoint row_get (r : Row) (name : string) : result value :=
  match r with
  | [] => Raise (KeyError name)
  | (c, v) :: rest => if String.eqb c name then Ok v else row_get rest name
  end.

(** [np.tile(s, k)] *)
Definition tile (s : Series) (k : nat) : Series := List.concat (repeat s k).

(** [frame.melt(id_vars=id, var_name=var, value_name=val)]: every column
    other than [id] is a value column; the long table lists the value
    columns one after the other, each against the whole [id] column. *)
Definition melt (frame : DataFrame) (id var val : string) : result DataFrame :=
  let* ids := getitem frame id in
  let rest := filter (fun c => negb (String.eqb (fst c) id)) frame in
  let N := nrows frame in
  let K := List.length rest in
  Ok [ (id, tile ids K);
       (var, flat_map (fun c => repeat (VStr (fst c)) N) rest);
       (val, flat_map snd rest) ].

(** ** Chart composer

    A figure is the description handed to the plotting library: the kind of
    chart, the frame it draws and the columns bound to its axes (for a pie,
    [fig_x] is the [names] column and [fig_y] the [values] column), and the
    traces added on top.  Titles, colours and marker styles are
    presentation and are left out. *)

Inductive kind := Bar | Scatter | Pie.

Record Trace := {
  trace_x : Series;
  trace_y : Series;
  trace_text : Series
}.

Record Figure := {
  fig_kind : kind;
  fig_data : DataFrame;
  fig_x : string;
  fig_y : string;
  fig_color : option string;
  fig_hover : option string;
  fig_overlays : list Trace
}.

Definition has_column (df : DataFrame) (name : string) : bool :=
  existsb (fun c => String.eqb (fst c) name) df.

Definition has_opt_column (df : DataFrame) (name : option string) : bool :=
  match name with
  | None => true
  | Some n => has_column df n
  end.

(** Plotly Express refuses a binding that names no column of the frame. *)
Definition px (k : kind) (data : DataFrame) (x y : string)
    (color hover : option string) : result Figure :=
  if has_column data x && has_column data y
     && has_opt_column data color && has_opt_column data hover
  then Ok {| fig_kind := k; fig_data := data; fig_x := x; fig_y := y;
             fig_color := color; fig_hover := hover; fig_overlays := [] |}
  else Raise ValueError.

(** [fig.add_scatter(x=..., y=..., text=...)] *)
Definition add_scatter (fig : Figure) (t : Trace) : Figure :=
  {| fig_kind := fig_kind fig; fig_data := fig_data fig;
     fig_x := fig_x fig; fig_y := fig_y fig;
     fig_color := fig_color fig; fig_hover := fig_hover fig;
     fig_overlays := fig_overlays fig ++ [t] |}.

(** The figure [fig] with its added traces replaced by [ts]. *)
Definition with_overlays (fig : Figure) (ts : list Trace) : Figure :=
  {| fig_kind := fig_kind fig; fig_data := fig_data fig;
     fig_x := fig_x fig; fig_y := fig_y fig;
     fig_color := fig_color fig; fig_hover := fig_hover fig;
     fig_overlays := ts |}.

Definition town_col : string := "Town".
Definition women_col : string := "Percentage of Women".
Definition men_col : string := "Percentage of Men".
Definition youth_col : string := "Percentage of Youth - 15-24 years".
Definition elderly_col : string := "Percentage of Eldelry - 65 or more years".

(** Lines 61-73: truncation flow. *)
Definition truncation_flow (df : DataFrame) (num_towns : Z)
  : result DataFrame :=
  let* town := getitem df town_col in
  let town := slice_to town num_towns in
  let* percentage_women := getitem df women_col in
  let percentage_women := slice_to percentage_women num_towns in
  let* percentage_men := getitem df men_col in
  let percentage_men := slice_to percentage_men num_towns in
  Ok (DataFrame_of_dict [ (town_col, town);
                          (women_col, percentage_women);
                          (men_col, percentage_men) ]).

(** [st.multiselect(label, options, default)]: Streamlit refuses a default
    that is not among the options; otherwise the widget returns what is
    selected in it. *)
Definition multiselect (options : Series) (default selected : list string)
  : result (list string) :=
  if forallb (fun t => existsb (fun v => value_eq_str v t) options) default
  then Ok selected
  else Raise StreamlitAPIException.

(** Lines 122-132: the annotation loop. *)
Definition annotate_town (df_plot : DataFrame) (fig : Figure) (town : string)
  : result Figure :=
  let* towns := getitem df_plot town_col in
  let town_data := filter_rows df_plot (eq_mask towns town) in
  let* xs := getitem town_data avg_col in
  let* ys := getitem town_data elderly_col in
  let* labels := getitem town_data town_col in
  Ok (add_scatter fig {| trace_x := xs; trace_y := ys; trace_text := labels |}).

(** The trace the loop adds for [town]: the rows of the three plotted
    columns whose Town cell equals [town]. *)
Definition town_trace (towns xs ys : Series) (town : string) : Trace :=
  {| trace_x := mask_select (eq_mask towns town) xs;
     trace_y := mask_select (eq_mask towns town) ys;
     trace_text := mask_select (eq_mask towns town) towns |}.

Fixpoint annotate (df_plot : DataFrame) (fig : Figure)
    (selected_towns : list string) : result Figure :=
  match selected_towns with
  | [] => Ok fig
  | town :: rest =>
      let* fig' := annotate_town df_plot fig town in
      annotate df_plot fig' rest
  end.

(** Lines 140-145: the sample table of the pie chart. *)
Definition data : DataFrame :=
  [ (town_col, [VStr "Town A"; VStr "Town B"; VStr "Town C"]);
    (women_col, [VNum (of_int 55); VNum (of_int 60); VNum (of_int 65)]);
    (men_col, [VNum (of_int 45); VNum (of_int 40); VNum (of_int 35)]) ].

(** Lines 160-166: the row of the selected town and the pie's table. *)
Definition pie_data (df : DataFrame) (selected_town : string)
  : result (Row * DataFrame) :=
  let* towns := getitem df town_col in
  let* selected_row := iloc0 (filter_rows df (eq_mask towns selected_town)) in
  let* w := row_get selected_row women_col in
  let* m := row_get selected_row men_col in
  Ok (selected_row,
      [ ("Gender", [VStr "Women"; VStr "Men"]); ("Percentage", [w; m]) ]).

(** Lines 197-198: category flow. *)
Definition category_flow (df : DataFrame) (selected_columns : list string)
  : result DataFrame :=
  let* df_plot := select df (town_col :: selected_columns) in
  melt df_plot town_col "Category" "Percentage".

(** ** The script

    The script runs top to bottom on every interaction.  Its state is the
    variable [df] and the charts displayed so far; an exception stops the
    run and leaves the page as it is. *)

Record Env := {
  df : DataFrame;
  page : list Figure
}.

Definition M (A : Type) := Env -> result A * Env.

Definition ret {A} (a : A) : M A := fun e => (Ok a, e).

Definition bind {A B} (m : M A) (k : A -> M B) : M B :=
  fun e =>
    match m e with
    | (Ok a, e') => k a e'
    | (Raise x, e') => (Raise x, e')
    end.

Definition lift {A} (r : result A) : M A := fun e => (r, e).

Definition get_df : M DataFrame := fun e => (Ok (df e), e).

Definition set_df (d : DataFrame) : M unit :=
  fun e => (Ok tt, {| df := d; page := page e |}).

(** [st.plotly_chart(fig)] *)
Definition plotly_chart (fig : Figure) : M unit :=
  fun e => (Ok tt, {| df := df e; page := page e ++ [fig] |}).

Notation "x <- m ;; k" := (bind m (fun x => k))
  (at level 61, m at next level, right associativity).
Notation "m ;;; k" := (bind m (fun _ => k))
  (at level 61, right associativity).

(** Lines 55, 86 and 184 *)
Definition strip_df_columns : M unit :=
  d <- get_df ;; set_df (strip_columns d).

(** Lines 55-83: gender by town. *)
Definition gender_section (w : Widgets) : M unit :=
  strip_df_columns ;;;
  d <- get_df ;;
  df_plot <- lift (truncation_flow d (num_towns w)) ;;
  df_melted <- lift (melt df_plot town_col "Gender" "Percentage") ;;
  fig <- lift (px Bar df_melted "Town" "Percentage" (Some "Gender") None) ;;
  plotly_chart fig.

(** Lines 85-135: family size against elderly population, with the selected
    towns annotated.  The derived column is added to [df] itself.  The
    options of the multiselect are the towns of the table
    ([df['Town'].unique()]). *)
Definition scatter_section (w : Widgets) : M unit :=
  strip_df_columns ;;;
  d <- get_df ;;
  d' <- lift (average_family_size_1 d) ;;
  set_df d' ;;;
  options <- lift (getitem d' town_col) ;;
  selected_towns <- lift (multiselect options default_towns
                            (selected_towns w)) ;;
  df_plot <- lift (select d' [town_col; avg_col; elderly_col]) ;;
  fig <- lift (px Scatter df_plot avg_col elderly_col None (Some town_col)) ;;
  fig <- lift (annotate df_plot fig selected_towns) ;;
  plotly_chart fig.

(** Lines 139-179: the pie chart of one town.  The sample table is bound to
    the variable [df]. *)
Definition pie_section (w : Widgets) : M unit :=
  set_df data ;;;
  d <- get_df ;;
  options <- lift (getitem d town_col) ;;
  if submit_button w then
    p <- lift (pie_data d (selected_town w)) ;;
    title <- lift (row_get (fst p) town_col) ;;
    fig <- lift (px Pie (snd p) "Gender" "Percentage" None None) ;;
    plotly_chart fig
  else ret tt.

(** Lines 183-204: the selected categories by town. *)
Definition category_section (w : Widgets) : M unit :=
  strip_df_columns ;;;
  d <- get_df ;;
  df_plot <- lift (category_flow d (selected_columns w)) ;;
  fig <- lift (px Bar df_plot "Town" "Percentage" (Some "Category") None) ;;
  plotly_chart fig.

(** Lines 206-233: family size against the chosen age group. *)
Definition age_section (w : Widgets) : M unit :=
  d <- get_df ;;
  d' <- lift (average_family_size_2 d) ;;
  set_df d' ;;;
  fig_scatter <- lift (px Scatter d' avg_col (age_group w)
                          (Some town_col) (Some town_col)) ;;
  plotly_chart fig_scatter.

Definition script (w : Widgets) : M unit :=
  gender_section w ;;;
  scatter_section w ;;;
  pie_section w ;;;
  category_section w ;;;
  age_section w.

(** One run of the script on the table read from the CSV file. *)
Definition run (loaded : DataFrame) (w : Widgets) : result unit * Env :=
  script w {| df := loaded; page := [] |}.

End Frames.

Arguments value F : clear implicits.
Arguments Series F : clear implicits.
Arguments DataFrame F : clear implicits.
Arguments Row F : clear implicits.
Arguments Trace F : clear implicits.
Arguments Figure F : clear implicits.
Arguments Env F : clear implicits.

(** The widgets as the script sets them up, before any interaction. *)
Definition default_widgets : Widgets :=
  {| num_towns := 70;
     selected_towns := default_towns;
     selected_town := "Town A";
     submit_button := false;
     selected_columns := ["Percentage of Women"; "Percentage of Men"];
     age_group := "Percentage of Youth - 15-24 years" |}.

(** The options of the category multiselect (line 192). *)
Definition category_options : list string :=
  ["Percentage of Women"; "Percentage of Men";
   "Percentage of Youth - 15-24 years";
   "Percentage of Eldelry - 65 or more years"].

(** ** binary64

    The numbers pandas computes with: the kernel's IEEE-754 binary64
    floats, rounding to nearest even. *)

Definition float_of_Z (z : Z) : float :=
  SF2Prim (binary_normalize prec emax z 0 false).

#[export] Instance Binary64 : Arith float := {
  fadd := PrimFloat.add;
  fmul := PrimFloat.mul;
  fdiv := PrimFloat.div;
  fnan := nan;
  of_int := float_of_Z;
  lit_1_5 := 1.5%float
}.


(** A small table with the columns of the CSV file, for concrete runs.
    [0x1.6666666666666p-1] and [0x1.3333333333333p-2] are the binary64
    numbers that [0.7] and [0.3] denote. *)
Definition example_b1 : list float :=
  [2; 0; 0x1.6666666666666p-1; 0; 1; 2]%float.
Definition example_b2 : list float := [0; 0; 0; 0; 1; 2]%float.
Definition example_b3 : list float :=
  [0; 0; 0; 0x1.3333333333333p-2; 2; 0]%float.

Definition example_towns : list string :=
  ["Aain El Saydeh"; "Aabadiyeh"; "Aachqout"; "Khreibet Baabda"; "Aabdine";
   "Fourzol"].

Definition example_elderly : list float := [10; 11; 12; 9; 8; 13]%float.

Definition example_table : DataFrame float :=
  [ ("Town", map VStr example_towns);
    ("Percentage of Women",
     [VNum 51; VNum 52; VNum 50; VNum 49; VNum 50.5; VNum 48])%float;
    ("Percentage of Men",
     [VNum 49; VNum 48; VNum 50; VNum 51; VNum 49.5; VNum 52])%float;
    ("Percentage of Youth - 15-24 years",
     [VNum 20; VNum 21; VNum 22; VNum 19; VNum 18; VNum 23])%float;
    ("Percentage of Eldelry - 65 or more years", map VNum example_elderly);
    ("Average family size - 1 to 3 members", map VNum example_b1);
    ("Average family size - 4 to 6 members", map VNum example_b2);
    ("Average family size - 7 or more members", map VNum example_b3) ].

(** The frame and the figure of the first scatter plot on that table. *)
Definition example_avg : list float :=
  [1.5; nan; 0x1.7ffffffffffffp+0; 0x1.c000000000001p+2; 5.125; 3.25]%float.

Definition example_df_plot : DataFrame float :=
  [ ("Town", map VStr example_towns);
    ("Average family size", map VNum example_avg);
    ("Percentage of Eldelry - 65 or more years",
     map VNum example_elderly) ].

Definition example_fig : Figure float :=
  {| fig_kind := Scatter; fig_data := example_df_plot;
     fig_x := "Average family size";
     fig_y := "Percentage of Eldelry - 65 or more years";
     fig_color := None; fig_hover := Some "Town"; fig_overlays := [] |}.

(** ** Exact arithmetic

    The same operations without rounding: rationals, with one undefined
    element for a division by zero and for a missing value. *)

Inductive exact :=
| Exact (q : Q)
| Undefined.

Definition exact_lift (f : Q -> Q -> Q) (a b : exact) : exact :=
  match a, b with
  | Exact x, Exact y => Exact (f x y)
  | _, _ => Undefined
  end.

Definition exact_div (a b : exact) : exact :=
  match a, b with
  | Exact x, Exact y => if Qeq_bool y 0 then Undefined else Exact (x / y)%Q
  | _, _ => Undefined
  end.

#[export] Instance ExactArith : Arith exact := {
  fadd := exact_lift Qplus;
  fmul := exact_lift Qmult;
  fdiv := exact_div;
  fnan := Undefined;
  of_int := fun z => Exact (inject_Z z);
  lit_1_5 := Exact (3 # 2)
}.

(** A table with a missing bucket value, and one with a repeated name. *)
Definition example_table_missing : DataFrame float :=
  [ ("Town", [VStr "Aabdine"; VStr "Fourzol"]);
    ("Average family size - 1 to 3 members", map VNum [30; 25]%float);
    ("Average family size - 4 to 6 members", map VNum [nan; 60]%float);
    ("Average family size - 7 or more members", map VNum [20; 15]%float) ].

Definition example_repeated_plot : DataFrame float :=
  [ ("Town", map VStr ["Zahle"; "Aley"; "Zahle"]);
    ("Average family size", map VNum [4; 5; 6]%float);
    ("Percentage of Eldelry - 65 or more years",
     map VNum [10; 11; 12]%float) ].

Definition example_env : Env float := {| df := example_table; page := [] |}.

(** A table with all the columns and none of the default towns. *)
Definition example_table_small : DataFrame float :=
  [ ("Town", map VStr ["Zahle"; "Aley"; "Jbeil"]);
    ("Percentage of Women", map VNum [51; 52; 50]%float);
    ("Percentage of Men", map VNum [49; 48; 50]%float);
    ("Percentage of Youth - 15-24 years", map VNum [20; 21; 22]%float);
    ("Percentage of Eldelry - 65 or more years", map VNum [10; 11; 12]%float);
    ("Average family size - 1 to 3 members", map VNum [2; 1; 2]%float);
    ("Average family size - 4 to 6 members", map VNum [0; 1; 2]%float);
    ("Average family size - 7 or more members", map VNum [0; 2; 0]%float) ].

(** ** Shapes of strings and columns, for the statements below *)

Definition head_is_space (s : string) : bool :=
  match s with
  | EmptyString => false
  | String c _ => is_space c
  end.

Fixpoint last_is_space (s : string) : bool :=
  match s with
  | EmptyString => false
  | String c EmptyString => is_space c
  | String _ s' => last_is_space s'
  end.

(** * Properties *)

Unset Implicit Arguments.

(** ** The result monad and lists *)

Lemma zip_with_length {A B C} (f : A -> B -> C) xs ys :
  List.length xs = List.length ys ->
  List.length (zip_with f xs ys) = List.length xs.
Proof.
  revert ys; induction xs as [|x xs IH]; intros [|y ys] E; simpl in *;
    try discriminate; auto.
Qed.

Lemma nth_error_zip_with {A B C} (f : A -> B -> C) xs ys i x y :
  nth_error xs i = Some x -> nth_error ys i = Some y ->
  nth_error (zip_with f xs ys) i = Some (f x y).
Proof.
  revert ys i; induction xs as [|a xs IH]; intros [|b ys] [|i] Hx Hy;
    simpl in *; try discriminate.
  - congruence.
  - eauto.
Qed.

Lemma firstn_min_length {A} (n : nat) (l : list A) :
  firstn (Nat.min n (List.length l)) l = firstn n l.
Proof.
  destruct (Nat.le_ge_cases n (List.length l)) as [Hle|Hge].
  - rewrite Nat.min_l by assumption. reflexivity.
  - rewrite Nat.min_r by assumption.
    rewrite firstn_all, firstn_all2 by assumption. reflexivity.
Qed.

Section FrameFacts.

Context {F : Type} `{Arith F}.

Local Abbreviation VN := (@VNum F).

(** ** Frames *)

Lemma getitem_length (t : DataFrame F) c s :
  well_formed t -> getitem t c = Ok s -> List.length s = nrows t.
Proof.
  unfold well_formed. generalize (nrows t) as n.
  induction t as [|[c' s'] t IH]; intros n W G; simpl in G.
  - discriminate.
  - apply Forall_cons_iff in W as [Hc Ht]. simpl in Hc.
    destruct (String.eqb c' c).
    + injection G as <-. exact Hc.
    + eauto.
Qed.

Lemma reindex_same (s : Series F) : reindex (List.length s) s = s.
Proof.
  unfold reindex. rewrite firstn_all, Nat.sub_diag. simpl.
  apply app_nil_r.
Qed.

Lemma getitem_replace_column (t : DataFrame F) c s :
  getitem (replace_column t c s) c = Ok s.
Proof.
  induction t as [|[c' s'] t IH]; simpl.
  - rewrite String.eqb_refl. reflexivity.
  - destruct (String.eqb c' c) eqn:E; simpl; rewrite E; auto.
Qed.

Lemma getitem_setitem (t : DataFrame F) c s :
  List.length s = nrows t -> getitem (setitem t c s) c = Ok s.
Proof.
  intros L. destruct t as [|col t].
  - simpl. rewrite String.eqb_refl. reflexivity.
  - unfold setitem. rewrite <- L, reindex_same.
    apply getitem_replace_column.
Qed.

(** ** Arithmetic on numeric columns *)

Lemma scalar_mul_numeric (k : F) (xs : list F) :
  scalar_mul k (map VN xs) = Ok (map VN (map (fmul k) xs)).
Proof.
  unfold scalar_mul. induction xs as [|x xs IH]; simpl.
  - reflexivity.
  - rewrite IH. reflexivity.
Qed.

Lemma series_op_numeric (f : F -> F -> F) (xs ys : list F) :
  List.length xs = List.length ys ->
  series_op f (map VN xs) (map VN ys) = Ok (map VN (zip_with f xs ys)).
Proof.
  unfold series_op. revert ys.
  induction xs as [|x xs IH]; intros [|y ys] E; simpl in *;
    try discriminate.
  - reflexivity.
  - injection E as E. specialize (IH ys E). simpl in IH.
    rewrite IH. reflexivity.
Qed.

Lemma derived_column_length l1 l2 l3 :
  List.length l1 = List.length l2 -> List.length l2 = List.length l3 ->
  List.length (derived_column l1 l2 l3) = List.length l1.
Proof.
  intros E12 E23. unfold derived_column.
  repeat (rewrite zip_with_length
          || rewrite length_map); congruence.
Qed.

Lemma derived_column_nth l1 l2 l3 i b1 b2 b3 :
  nth_error l1 i = Some b1 -> nth_error l2 i = Some b2 ->
  nth_error l3 i = Some b3 ->
  nth_error (derived_column l1 l2 l3) i = Some (weighted_mean b1 b2 b3).
Proof.
  intros H1 H2 H3. unfold derived_column, weighted_mean.
  repeat (apply nth_error_zip_with || apply map_nth_error); assumption.
Qed.

Lemma average_family_size_1_numeric (t : DataFrame F) l1 l2 l3 :
  getitem t bucket_1_3 = Ok (map VN l1) ->
  getitem t bucket_4_6 = Ok (map VN l2) ->
  getitem t bucket_7_up = Ok (map VN l3) ->
  List.length l1 = List.length l2 -> List.length l2 = List.length l3 ->
  average_family_size_1 t
  = Ok (setitem t avg_col (map VN (derived_column l1 l2 l3))).
Proof.
  intros G1 G2 G3 E12 E23. unfold average_family_size_1.
  rewrite G1, G2, G3. simpl.
  rewrite !scalar_mul_numeric. simpl.
  unfold series_add, series_div.
  rewrite series_op_numeric by (rewrite !length_map; assumption). simpl.
  rewrite series_op_numeric
    by (rewrite zip_with_length; rewrite !length_map; congruence). simpl.
  rewrite series_op_numeric by assumption. simpl.
  rewrite series_op_numeric by (rewrite zip_with_length; congruence). simpl.
  rewrite series_op_numeric.
  - reflexivity.
  - repeat (rewrite zip_with_length || rewrite length_map); congruence.
Qed.

Lemma average_family_size_1_column (t : DataFrame F) l1 l2 l3 :
  getitem t bucket_1_3 = Ok (map VN l1) ->
  getitem t bucket_4_6 = Ok (map VN l2) ->
  getitem t bucket_7_up = Ok (map VN l3) ->
  well_formed t ->
  exists t',
    average_family_size_1 t = Ok t' /\
    getitem t' avg_col = Ok (map VN (derived_column l1 l2 l3)).
Proof.
  intros G1 G2 G3 W.
  pose proof (getitem_length _ _ _ W G1) as L1.
  pose proof (getitem_length _ _ _ W G2) as L2.
  pose proof (getitem_length _ _ _ W G3) as L3.
  rewrite length_map in L1, L2, L3.
  eexists. split.
  - apply average_family_size_1_numeric; try eassumption; congruence.
  - apply getitem_setitem.
    rewrite length_map, derived_column_length; congruence.
Qed.

(** C1: for every town row, the derived 'Average family size' cell is
    (1.5*b1 + 5*b2 + 7*b3) / (b1 + b2 + b3) of the row's three bucket cells.
    The equation holds for every row; the rows with a non-zero bucket sum,
    of which the claim speaks, are among them. *)
Theorem average_family_size_formula (t : DataFrame F) (l1 l2 l3 : list F) :
  getitem t bucket_1_3 = Ok (map VN l1) ->
  getitem t bucket_4_6 = Ok (map VN l2) ->
  getitem t bucket_7_up = Ok (map VN l3) ->
  well_formed t ->
  exists t' col,
    average_family_size_1 t = Ok t' /\
    getitem t' avg_col = Ok col /\
    List.length col = nrows t /\
    forall i b1 b2 b3,
      nth_error l1 i = Some b1 -> nth_error l2 i = Some b2 ->
      nth_error l3 i = Some b3 ->
      nth_error col i = Some (VNum (weighted_mean b1 b2 b3)).
Proof.
  intros G1 G2 G3 W.
  destruct (average_family_size_1_column t l1 l2 l3 G1 G2 G3 W)
    as (t' & D & G).
  pose proof (getitem_length _ _ _ W G1) as L1.
  pose proof (getitem_length _ _ _ W G2) as L2.
  pose proof (getitem_length _ _ _ W G3) as L3.
  rewrite length_map in L1, L2, L3.
  exists t', (map VN (derived_column l1 l2 l3)).
  repeat split; try assumption.
  - rewrite length_map, derived_column_length; congruence.
  - intros i b1 b2 b3 H1 H2 H3. apply map_nth_error.
    apply derived_column_nth; assumption.
Qed.

(** C9: the two computations of the derived column, lines 89-97 and lines
    214-222, are the same function of the table: on every table they give
    the same result (the same table with the same derived column, or the
    same exception). *)
Theorem average_family_size_recomputed_identically (t : DataFrame F) :
  average_family_size_1 t = average_family_size_2 t.
Proof.
  unfold average_family_size_1, average_family_size_2.
  unfold bucket_1_3, bucket_4_6, bucket_7_up, avg_col.
  reflexivity.
Qed.

End FrameFacts.

(** ** Truncation and melting *)

Lemma concat_nth_block {A} (m : nat) (ls : list (list A)) :
  Forall (fun l => List.length l = m) ls ->
  List.length (List.concat ls) = List.length ls * m /\
  forall j i l,
    nth_error ls j = Some l -> i < m ->
    nth_error (List.concat ls) (j * m + i) = nth_error l i.
Proof.
  induction 1 as [|l0 ls L0 Hls [IHlen IHnth]]; simpl.
  - split; [reflexivity|]. intros [|j] i l E; discriminate E.
  - split.
    + rewrite length_app, IHlen, L0. reflexivity.
    + intros [|j] i l E Hi; simpl in *.
      * injection E as <-. apply nth_error_app1. lia.
      * rewrite nth_error_app2 by lia.
        replace (m + j * m + i - List.length l0) with (j * m + i) by lia.
        apply IHnth; assumption.
Qed.

Section ViewFacts.

Context {F : Type} `{Arith F}.

Lemma slice_to_nonneg {A} (l : list A) (n : Z) :
  (0 <= n)%Z -> slice_to l n = firstn (Z.to_nat n) l.
Proof.
  intros Hn. unfold slice_to.
  destruct (Z.leb_spec 0 n); [reflexivity | lia].
Qed.

Lemma select_columns (t : DataFrame F) (cs : list string)
    (ss : list (Series F)) :
  Forall2 (fun c s => getitem t c = Ok s) cs ss ->
  select t cs = Ok (combine cs ss).
Proof.
  unfold select. induction 1 as [|c s cs ss G _ IH]; simpl.
  - reflexivity.
  - rewrite G. simpl. rewrite IH. reflexivity.
Qed.

Lemma filter_value_columns (id : string) (cs : list string)
    (ss : list (Series F)) :
  ~ In id cs ->
  filter (fun c : string * Series F => negb (String.eqb (fst c) id))
    (combine cs ss) = combine cs ss.
Proof.
  revert ss. induction cs as [|c cs IH]; intros [|s ss] N; simpl;
    try reflexivity.
  destruct (String.eqb_spec c id) as [->|_]; simpl.
  - exfalso. apply N. left. reflexivity.
  - rewrite IH; [reflexivity|]. intros I. apply N. right. exact I.
Qed.

(** Melting a frame made of the [id] column followed by value columns. *)
Lemma melt_value_columns (id var val : string) (ids : Series F)
    (cs : list string) (ss : list (Series F)) :
  ~ In id cs ->
  melt ((id, ids) :: combine cs ss) id var val
  = Ok [ (id, tile ids (List.length (combine cs ss)));
         (var, flat_map (fun c : string * Series F =>
                           repeat (VStr (fst c)) (List.length ids))
                 (combine cs ss));
         (val, flat_map snd (combine cs ss)) ].
Proof.
  intros N. unfold melt. simpl. rewrite String.eqb_refl. simpl.
  rewrite filter_value_columns by assumption. reflexivity.
Qed.

Lemma tile_block (ids : Series F) (k : nat) :
  List.length (tile ids k) = k * List.length ids /\
  forall j i, j < k -> i < List.length ids ->
    nth_error (tile ids k) (j * List.length ids + i) = nth_error ids i.
Proof.
  unfold tile.
  destruct (concat_nth_block (List.length ids) (repeat ids k)) as [L N].
  - apply Forall_forall. intros l I. apply repeat_spec in I. now subst.
  - rewrite repeat_length in L. split; [exact L|].
    intros j i Hj Hi. apply N; [|exact Hi].
    apply nth_error_repeat. exact Hj.
Qed.

Lemma var_block (m : nat) (cs : list string) (ss : list (Series F)) :
  List.length cs = List.length ss ->
  let C := flat_map (fun c : string * Series F => repeat (VStr (fst c)) m)
             (combine cs ss) in
  List.length C = List.length cs * m /\
  forall j i c, nth_error cs j = Some c -> i < m ->
    nth_error C (j * m + i) = Some (@VStr F c).
Proof.
  intros E C. subst C. rewrite flat_map_concat_map.
  destruct (concat_nth_block m
              (map (fun c : string * Series F => repeat (@VStr F (fst c)) m)
                 (combine cs ss))) as [L N].
  - apply Forall_forall. intros l I. apply in_map_iff in I.
    destruct I as (c & <- & _). apply repeat_length.
  - rewrite length_map, length_combine, <- E, Nat.min_id in L.
    split; [exact L|].
    intros j i c Hc Hi.
    destruct (nth_error ss j) as [s|] eqn:Hs.
    + rewrite (N j i (repeat (VStr c) m)); [|
        | exact Hi].
      * apply nth_error_repeat. exact Hi.
      * apply map_nth_error with (f := fun c : string * Series F =>
                                         repeat (@VStr F (fst c)) m)
          (d := (c, s)).
        revert Hc Hs. clear. revert ss j.
        induction cs as [|c0 cs IH]; intros [|s0 ss] [|j] Hc Hs;
          simpl in *; try discriminate; try congruence.
        apply IH; assumption.
    + apply nth_error_None in Hs.
      assert (j < List.length cs) by (apply nth_error_Some; congruence).
      lia.
Qed.

Lemma value_block (m : nat) (cs : list string) (ss : list (Series F)) :
  List.length cs = List.length ss ->
  Forall (fun s => List.length s = m) ss ->
  let P := flat_map snd (combine cs ss) in
  List.length P = List.length cs * m /\
  forall j i s, nth_error ss j = Some s -> i < m ->
    nth_error P (j * m + i) = nth_error s i.
Proof.
  intros E W P. subst P. rewrite flat_map_concat_map.
  assert (M : map (@snd string (list (value F))) (combine cs ss) = ss).
  { revert ss E W. clear. induction cs as [|c cs IH]; intros [|s ss] E W;
      simpl in *; try discriminate; try reflexivity.
    f_equal. apply IH; [congruence|]. now apply Forall_cons_iff in W. }
  rewrite M.
  destruct (concat_nth_block m ss W) as [L N].
  split; [rewrite E; exact L|exact N].
Qed.

Lemma DataFrame_of_dict_aligned (a b c : string) (s1 s2 s3 : Series F) :
  List.length s1 = List.length s2 -> List.length s2 = List.length s3 ->
  DataFrame_of_dict [(a, s1); (b, s2); (c, s3)]
  = [(a, s1); (b, s2); (c, s3)].
Proof.
  intros E12 E23. unfold DataFrame_of_dict. simpl.
  rewrite <- E23, <- E12, Nat.max_0_r, !Nat.max_id.
  rewrite reindex_same.
  rewrite E12 at 1. rewrite reindex_same.
  rewrite E12, E23. rewrite reindex_same. reflexivity.
Qed.

(** C5: for every slider value N of 10, 20, ..., 70 the truncation flow
    keeps exactly the first min(N, number of rows) rows of the Town,
    Percentage of Women and Percentage of Men columns; with N = 10 that is
    10 towns, or all of them if the table has fewer. *)
Theorem truncation_takes_first_rows (t : DataFrame F)
    (towns pw pm : Series F) (N : Z) :
  getitem t town_col = Ok towns ->
  getitem t women_col = Ok pw ->
  getitem t men_col = Ok pm ->
  well_formed t ->
  In N [10; 20; 30; 40; 50; 60; 70]%Z ->
  let n := Nat.min (Z.to_nat N) (nrows t) in
  truncation_flow t N
  = Ok [ (town_col, firstn n towns); (women_col, firstn n pw);
         (men_col, firstn n pm) ] /\
  List.length (firstn n towns) = n /\
  List.length (firstn n pw) = n /\
  List.length (firstn n pm) = n /\
  (N = 10%Z -> n = if (10 <=? nrows t)%nat then 10 else nrows t).
Proof.
  intros G1 G2 G3 W HN n.
  pose proof (getitem_length _ _ _ W G1) as L1.
  pose proof (getitem_length _ _ _ W G2) as L2.
  pose proof (getitem_length _ _ _ W G3) as L3.
  assert (Hpos : (0 <= N)%Z) by (simpl in HN; lia).
  assert (E1 : firstn n towns = firstn (Z.to_nat N) towns)
    by (unfold n; rewrite <- L1; apply firstn_min_length).
  assert (E2 : firstn n pw = firstn (Z.to_nat N) pw)
    by (unfold n; rewrite <- L2; apply firstn_min_length).
  assert (E3 : firstn n pm = firstn (Z.to_nat N) pm)
    by (unfold n; rewrite <- L3; apply firstn_min_length).
  assert (K1 : List.length (firstn n towns) = n)
    by (rewrite length_firstn; unfold n; lia).
  assert (K2 : List.length (firstn n pw) = n)
    by (rewrite length_firstn; unfold n; lia).
  assert (K3 : List.length (firstn n pm) = n)
    by (rewrite length_firstn; unfold n; lia).
  repeat split; try assumption.
  - unfold truncation_flow. rewrite G1, G2, G3. simpl.
    rewrite !slice_to_nonneg by assumption.
    rewrite <- E1, <- E2, <- E3.
    rewrite DataFrame_of_dict_aligned by congruence. reflexivity.
  - intros ->. unfold n. change (Z.to_nat 10) with 10.
    destruct (Nat.leb_spec 10 (nrows t)); lia.
Qed.

(** C6: melting k selected category columns of a table of m towns gives
    exactly k*m long rows; row j*m+i holds town i, the name of the j-th
    selected column and the cell of that column for town i.  The chart is
    built from that table without an error; with no column selected the
    table, and so the chart, is empty. *)
Theorem melt_long_format (t : DataFrame F) (towns : Series F)
    (cs : list string) (ss : list (Series F)) :
  getitem t town_col = Ok towns ->
  well_formed t ->
  Forall2 (fun c s => getitem t c = Ok s) cs ss ->
  incl cs category_options ->
  NoDup cs ->
  let m := nrows t in
  let k := List.length cs in
  exists T C P fig,
    category_flow t cs
    = Ok [(town_col, T); ("Category", C); ("Percentage", P)] /\
    List.length T = k * m /\ List.length C = k * m /\
    List.length P = k * m /\
    (forall j i c s,
       nth_error cs j = Some c -> nth_error ss j = Some s -> i < m ->
       nth_error T (j * m + i) = nth_error towns i /\
       nth_error C (j * m + i) = Some (VStr c) /\
       nth_error P (j * m + i) = nth_error s i) /\
    px Bar [(town_col, T); ("Category", C); ("Percentage", P)]
       "Town" "Percentage" (Some "Category") None = Ok fig /\
    fig_data fig = [(town_col, T); ("Category", C); ("Percentage", P)] /\
    (cs = [] -> T = [] /\ C = [] /\ P = []).
Proof.
  intros G W S I _ m k.
  pose proof (getitem_length _ _ _ W G) as Lt. fold m in Lt.
  pose proof (Forall2_length S) as Ek. fold k in Ek.
  assert (Ws : Forall (fun s => List.length s = m) ss).
  { clear - S W. unfold m. induction S as [|c s cs ss Gc _ IH]; constructor.
    - exact (getitem_length _ _ _ W Gc).
    - exact IH. }
  assert (NT : ~ In town_col cs).
  { intros J. apply I in J. simpl in J.
    repeat (destruct J as [J|J]; [discriminate J|]). exact J. }
  destruct (tile_block towns k) as [LT NthT].
  destruct (var_block m cs ss Ek) as [LC NthC].
  destruct (value_block m cs ss Ek Ws) as [LP NthP].
  rewrite Lt in LT, NthT.
  assert (Kc : List.length (combine cs ss) = k)
    by (rewrite length_combine, <- Ek; apply Nat.min_id).
  eexists _, _, _, _.
  split; [|split; [|split; [|split; [|split; [|split; [|split]]]]]].
  - unfold category_flow.
    rewrite (select_columns t (town_col :: cs) (towns :: ss))
      by (constructor; assumption).
    simpl combine. unfold rbind.
    rewrite melt_value_columns by assumption.
    rewrite Kc, Lt. reflexivity.
  - exact LT.
  - exact LC.
  - exact LP.
  - intros j i c s Hc Hs Hi.
    assert (Hj : j < k) by (apply nth_error_Some; congruence).
    repeat split; auto.
  - reflexivity.
  - reflexivity.
  - intros ->. simpl in Ek. destruct ss; [|discriminate Ek].
    repeat split; reflexivity.
Qed.

End ViewFacts.

(** ** Filtering by town *)

Section FilterFacts.

Context {F : Type} `{Arith F}.

Lemma getitem_filter_rows (t : DataFrame F) (mask : list bool) c s :
  getitem t c = Ok s ->
  getitem (filter_rows t mask) c = Ok (mask_select mask s).
Proof.
  induction t as [|[c' s'] t IH]; simpl; intros G.
  - discriminate.
  - destruct (String.eqb c' c).
    + injection G as <-. reflexivity.
    + auto.
Qed.

Lemma mask_select_absent {A} (towns : Series F) (t : string) (xs : list A) :
  ~ In (VStr t) towns -> mask_select (eq_mask towns t) xs = [].
Proof.
  revert xs. induction towns as [|v towns IH]; intros xs N; simpl.
  - reflexivity.
  - destruct xs as [|x xs]; [reflexivity|].
    assert (E : value_eq_str v t = false).
    { destruct v as [s|x']; simpl; [|reflexivity].
      destruct (String.eqb_spec s t) as [->|]; [|reflexivity].
      exfalso. apply N. left. reflexivity. }
    rewrite E. apply IH. intros I. apply N. right. exact I.
Qed.

(** The rows selected for a town start with the row of its first
    occurrence in the Town column. *)
Lemma mask_select_first {A} (names : list string) (t : string)
    (xs : list A) (i : nat) (x : A) :
  nth_error names i = Some t ->
  (forall j, j < i -> nth_error names j <> Some t) ->
  nth_error xs i = Some x ->
  exists rest,
    mask_select (eq_mask (map (@VStr F) names) t) xs = x :: rest /\
    (NoDup names -> rest = []).
Proof.
  revert xs i. induction names as [|n names IH]; intros xs i Hn Hfirst Hx.
  - destruct i; discriminate Hn.
  - destruct xs as [|x0 xs]; [destruct i; discriminate Hx|].
    destruct i as [|i]; simpl in *.
    + injection Hn as ->. injection Hx as ->.
      rewrite String.eqb_refl. eexists. split; [reflexivity|].
      intros ND. apply NoDup_cons_iff in ND as [Nin _].
      apply mask_select_absent. intros I. apply in_map_iff in I.
      destruct I as (t' & E & I). injection E as ->. contradiction.
    + destruct (String.eqb_spec n t) as [->|Hneq].
      * exfalso. apply (Hfirst 0); [lia | reflexivity].
      * destruct (IH xs i Hn) as (rest & E & R); [|exact Hx|].
        -- intros j Hj. apply (Hfirst (S j)). lia.
        -- exists rest. split; [exact E|].
           intros ND. apply R. now apply NoDup_cons_iff in ND.
Qed.

Lemma first_occurrence (names : list string) (t : string) :
  In t names ->
  exists i, nth_error names i = Some t /\
            forall j, j < i -> nth_error names j <> Some t.
Proof.
  induction names as [|n names IH]; intros I.
  - destruct I.
  - destruct (String.eqb_spec n t) as [->|Hneq].
    + exists 0. split; [reflexivity|]. intros j Hj. lia.
    + destruct I as [->|I]; [contradiction|].
      destruct (IH I) as (i & Hi & Hfirst).
      exists (S i). split; [exact Hi|].
      intros [|j] Hj; simpl.
      * congruence.
      * apply Hfirst. lia.
Qed.

(** ** The annotation loop *)

Lemma annotate_town_trace (df_plot : DataFrame F) (fig : Figure F)
    (towns xs ys : Series F) (town : string) :
  getitem df_plot town_col = Ok towns ->
  getitem df_plot avg_col = Ok xs ->
  getitem df_plot elderly_col = Ok ys ->
  annotate_town df_plot fig town
  = Ok (add_scatter fig (town_trace towns xs ys town)).
Proof.
  intros Gt Gx Gy. unfold annotate_town. rewrite Gt. simpl.
  rewrite (getitem_filter_rows _ _ _ _ Gx). simpl.
  rewrite (getitem_filter_rows _ _ _ _ Gy). simpl.
  rewrite (getitem_filter_rows _ _ _ _ Gt). reflexivity.
Qed.

Lemma annotate_traces (df_plot : DataFrame F) (towns xs ys : Series F)
    (selected : list string) :
  getitem df_plot town_col = Ok towns ->
  getitem df_plot avg_col = Ok xs ->
  getitem df_plot elderly_col = Ok ys ->
  forall fig,
    annotate df_plot fig selected
    = Ok (with_overlays fig
            (fig_overlays fig ++ map (town_trace towns xs ys) selected)).
Proof.
  intros Gt Gx Gy.
  induction selected as [|town rest IH]; intros fig; simpl.
  - rewrite app_nil_r. destruct fig; reflexivity.
  - rewrite (annotate_town_trace _ _ _ _ _ _ Gt Gx Gy). simpl.
    rewrite IH. unfold with_overlays. simpl.
    rewrite <- app_assoc. reflexivity.
Qed.

(** C7: with unique town names, the annotation loop adds one trace for
    each selected town, in the order of the selection, and the trace holds
    exactly one point: that town's row, labelled with its name.  So the
    labels highlighted on the plot are exactly the selected towns, each of
    them once.  The selection comes from the multiselect, whose options are
    the towns of the table and which returns no town twice. *)
Theorem selected_towns_highlighted_once (df_plot : DataFrame F)
    (fig : Figure F) (names : list string) (xs ys : Series F)
    (selected : list string) :
  getitem df_plot town_col = Ok (map VStr names) ->
  getitem df_plot avg_col = Ok xs ->
  getitem df_plot elderly_col = Ok ys ->
  well_formed df_plot ->
  NoDup names ->
  incl selected names ->
  NoDup selected ->
  exists fig' overlays,
    annotate df_plot fig selected = Ok fig' /\
    fig_overlays fig' = fig_overlays fig ++ overlays /\
    List.length overlays = List.length selected /\
    (forall k t,
       nth_error selected k = Some t ->
       exists i x y,
         nth_error names i = Some t /\
         nth_error xs i = Some x /\ nth_error ys i = Some y /\
         nth_error overlays k
         = Some {| trace_x := [x]; trace_y := [y];
                   trace_text := [VStr t] |}) /\
    flat_map (@trace_text F) overlays = map VStr selected /\
    NoDup (flat_map (@trace_text F) overlays).
Proof.
  intros Gt Gx Gy W ND Incl NDsel.
  pose proof (getitem_length _ _ _ W Gt) as Lt.
  pose proof (getitem_length _ _ _ W Gx) as Lx.
  pose proof (getitem_length _ _ _ W Gy) as Ly.
  rewrite length_map in Lt.
  assert (Tr : forall t, In t selected ->
             exists i x y,
               nth_error names i = Some t /\
               nth_error xs i = Some x /\ nth_error ys i = Some y /\
               town_trace (map VStr names) xs ys t
               = {| trace_x := [x]; trace_y := [y];
                    trace_text := [VStr t] |}).
  { intros t It. apply Incl in It.
    destruct (first_occurrence names t It) as (i & Hi & Hfirst).
    assert (Hlt : i < List.length names)
      by (apply nth_error_Some; congruence).
    destruct (nth_error xs i) as [x|] eqn:Hx;
      [|apply nth_error_None in Hx; lia].
    destruct (nth_error ys i) as [y|] eqn:Hy;
      [|apply nth_error_None in Hy; lia].
    exists i, x, y. repeat split; try assumption.
    unfold town_trace.
    destruct (mask_select_first names t xs i x Hi Hfirst Hx)
      as (r1 & -> & R1).
    destruct (mask_select_first names t ys i y Hi Hfirst Hy)
      as (r2 & -> & R2).
    destruct (mask_select_first names t (map (@VStr F) names) i (VStr t)
                Hi Hfirst (map_nth_error _ _ _ Hi))
      as (r3 & -> & R3).
    rewrite (R1 ND), (R2 ND), (R3 ND). reflexivity. }
  assert (Labels : flat_map (@trace_text F)
                     (map (town_trace (map VStr names) xs ys) selected)
                   = map VStr selected).
  { clear - Tr. induction selected as [|t rest IH]; cbn [map flat_map].
    - reflexivity.
    - destruct (Tr t) as (i & x & y & _ & _ & _ & ->);
        [left; reflexivity|].
      simpl. f_equal. apply IH. intros t' I. apply Tr. right. exact I. }
  eexists _, (map (town_trace (map VStr names) xs ys) selected).
  split; [apply (annotate_traces _ _ _ _ _ Gt Gx Gy)|].
  split; [reflexivity|].
  split; [apply length_map|].
  split; [|split].
  - intros k t Hk.
    destruct (Tr t (nth_error_In _ _ Hk)) as (i & x & y & Hi & Hx & Hy & E).
    exists i, x, y. repeat split; try assumption.
    rewrite <- E. apply map_nth_error. exact Hk.
  - exact Labels.
  - rewrite Labels. apply Injective_map_NoDup; [|exact NDsel].
    intros a b E. injection E as ->. reflexivity.
Qed.

(** C10: the annotation loop never raises on a frame that has the three
    plotted columns; the base of the figure is left as it was, and a
    selected name that is no town of the table contributes a trace without
    any point or label. *)
Theorem absent_town_adds_empty_trace (df_plot : DataFrame F)
    (fig : Figure F) (towns xs ys : Series F) (selected : list string) :
  getitem df_plot town_col = Ok towns ->
  getitem df_plot avg_col = Ok xs ->
  getitem df_plot elderly_col = Ok ys ->
  exists fig' overlays,
    annotate df_plot fig selected = Ok fig' /\
    fig_kind fig' = fig_kind fig /\ fig_data fig' = fig_data fig /\
    fig_x fig' = fig_x fig /\ fig_y fig' = fig_y fig /\
    fig_color fig' = fig_color fig /\ fig_hover fig' = fig_hover fig /\
    fig_overlays fig' = fig_overlays fig ++ overlays /\
    List.length overlays = List.length selected /\
    forall k t,
      nth_error selected k = Some t ->
      ~ In (VStr t) towns ->
      nth_error overlays k
      = Some {| trace_x := []; trace_y := []; trace_text := [] |}.
Proof.
  intros Gt Gx Gy.
  eexists _, (map (town_trace towns xs ys) selected).
  split; [apply (annotate_traces _ _ _ _ _ Gt Gx Gy)|].
  repeat (split; [reflexivity|]).
  split; [apply length_map|].
  intros k t Hk Nin.
  rewrite (map_nth_error _ _ _ Hk). unfold town_trace.
  rewrite !mask_select_absent by assumption. reflexivity.
Qed.

(** ** The pie chart *)

Lemma row_get_map (d : DataFrame F) (g : Series F -> value F) c s :
  getitem d c = Ok s ->
  row_get (map (fun col => (fst col, g (snd col))) d) c = Ok (g s).
Proof.
  induction d as [|[c' s'] d IH]; simpl; intros G.
  - discriminate.
  - destruct (String.eqb c' c).
    + injection G as <-. reflexivity.
    + auto.
Qed.

Lemma iloc0_filter_rows (d : DataFrame F) (mask : list bool) :
  nrows (filter_rows d mask) <> 0 ->
  iloc0 (filter_rows d mask)
  = Ok (map (fun c => (fst c, hd (VNum fnan) (mask_select mask (snd c)))) d).
Proof.
  intros NZ. unfold iloc0.
  destruct (nrows (filter_rows d mask)); [contradiction|].
  unfold filter_rows. rewrite map_map. reflexivity.
Qed.

(** C8: the pie's table has two rows, Women and Men, whose values are the
    selected town's cells of the Percentage of Women and Percentage of Men
    columns as they are.  The form, once submitted, displays that pie for
    whichever town of the sample is selected in it, and no pie before it is
    submitted; submitted with Town B it displays the two slices Women = 60
    and Men = 40. *)
Theorem pie_slices_are_raw_values (d : DataFrame F) (names : list string)
    (ws ms : Series F) (town : string) (i : nat) (w m : value F) :
  getitem d town_col = Ok (map VStr names) ->
  getitem d women_col = Ok ws ->
  getitem d men_col = Ok ms ->
  well_formed d ->
  nth_error names i = Some town ->
  (forall j, j < i -> nth_error names j <> Some town) ->
  nth_error ws i = Some w ->
  nth_error ms i = Some m ->
  (exists selected_row,
     pie_data d town
     = Ok (selected_row,
           [ ("Gender", [VStr "Women"; VStr "Men"]);
             ("Percentage", [w; m]) ])) /\
  (forall (wd : Widgets) (e : Env F) (j : nat) (wv mv : value F),
     submit_button wd = true ->
     nth_error ["Town A"; "Town B"; "Town C"] j = Some (selected_town wd) ->
     nth_error [VNum (of_int 55); VNum (of_int 60); VNum (of_int 65)] j
     = Some wv ->
     nth_error [VNum (of_int 45); VNum (of_int 40); VNum (of_int 35)] j
     = Some mv ->
     pie_section wd e
     = (Ok tt,
        {| df := data;
           page := page e ++
             [ {| fig_kind := Pie;
                  fig_data :=
                    [ ("Gender", [VStr "Women"; VStr "Men"]);
                      ("Percentage", [wv; mv]) ];
                  fig_x := "Gender"; fig_y := "Percentage";
                  fig_color := None; fig_hover := None;
                  fig_overlays := [] |} ] |})) /\
  (forall (wd : Widgets) (e : Env F),
     submit_button wd = false ->
     pie_section wd e = (Ok tt, {| df := data; page := page e |})) /\
  (forall n sel cols ag (e : Env F),
     pie_section {| num_towns := n; selected_towns := sel;
                    selected_town := "Town B"; submit_button := true;
                    selected_columns := cols; age_group := ag |} e
     = (Ok tt,
        {| df := data;
           page := page e ++
             [ {| fig_kind := Pie;
                  fig_data :=
                    [ ("Gender", [VStr "Women"; VStr "Men"]);
                      ("Percentage",
                       [VNum (of_int 60); VNum (of_int 40)]) ];
                  fig_x := "Gender"; fig_y := "Percentage";
                  fig_color := None; fig_hover := None;
                  fig_overlays := [] |} ] |})).
Proof.
  intros Gt Gw Gm W Hi Hfirst Hw Hm.
  split; [|split; [|split; [|reflexivity]]].
  2:{ intros wd e j wv mv S Hj Hwv Hmv.
      unfold pie_section, bind, get_df, set_df, lift, plotly_chart.
      cbn [df page]. rewrite S.
      destruct j as [|[|[|j]]]; simpl in Hj, Hwv, Hmv;
        [| | |destruct j; discriminate Hj];
        injection Hj as <-; injection Hwv as <-; injection Hmv as <-;
        reflexivity. }
  2:{ intros wd e S.
      unfold pie_section, bind, get_df, set_df, lift, ret.
      cbn [df page]. rewrite S. reflexivity. }
  unfold pie_data. rewrite Gt. simpl.
  set (mask := eq_mask (map VStr names) town).
  assert (NZ : nrows (filter_rows d mask) <> 0).
  { destruct d as [|[c0 s0] d']; [discriminate Gt|].
    pose proof (getitem_length _ _ _ W Gt) as Lt.
    rewrite length_map in Lt. simpl in Lt. simpl.
    assert (Hlt : i < List.length names)
      by (apply nth_error_Some; congruence).
    destruct (nth_error s0 i) as [x0|] eqn:H0;
      [|apply nth_error_None in H0; lia].
    destruct (mask_select_first names town s0 i x0 Hi Hfirst H0)
      as (rest & E & _).
    unfold mask. rewrite E. discriminate. }
  rewrite (iloc0_filter_rows d mask NZ). simpl.
  rewrite (row_get_map d (fun s => hd (VNum fnan) (mask_select mask s))
             _ _ Gw). simpl.
  rewrite (row_get_map d (fun s => hd (VNum fnan) (mask_select mask s))
             _ _ Gm). simpl.
  destruct (mask_select_first names town ws i w Hi Hfirst Hw)
    as (r1 & E1 & _).
  destruct (mask_select_first names town ms i m Hi Hfirst Hm)
    as (r2 & E2 & _).
  unfold mask. rewrite E1, E2. simpl. eexists. reflexivity.
Qed.

End FilterFacts.

(** ** The variable [df] across the chart sections *)

Section ScriptFacts.

Context {F : Type} `{Arith F}.

Lemma strip_columns_data : strip_columns (@data F _) = data.
Proof. reflexivity. Qed.

Lemma pie_section_rebinds_df (w : Widgets) (e : Env F) :
  df (snd (pie_section w e)) = data.
Proof.
  unfold pie_section, bind, set_df, get_df, lift, plotly_chart, ret.
  simpl.
  destruct (submit_button w); [|reflexivity].
  destruct (pie_data data (selected_town w)) as [p|x]; [|reflexivity].
  destruct (row_get (fst p) town_col); [|reflexivity].
  destruct (px Pie (snd p) "Gender" "Percentage" None None); reflexivity.
Qed.

Lemma category_section_keeps_sample (w : Widgets) (e : Env F) :
  df e = data -> df (snd (category_section w e)) = data.
Proof.
  intros E. unfold category_section, strip_df_columns, bind, set_df, get_df,
    lift, plotly_chart. simpl. rewrite E, strip_columns_data.
  destruct (category_flow data (selected_columns w)) as [df_plot|x];
    [|reflexivity].
  destruct (px Bar df_plot "Town" "Percentage" (Some "Category") None);
    reflexivity.
Qed.

Lemma age_section_on_sample (w : Widgets) (e : Env F) :
  df e = data ->
  age_section w e = (Raise (KeyError bucket_1_3), e).
Proof.
  intros E. unfold age_section, bind, get_df, lift. simpl.
  unfold average_family_size_2. rewrite E. reflexivity.
Qed.

Lemma script_never_completes (loaded : DataFrame F) (w : Widgets) :
  exists x, fst (run loaded w) = Raise x.
Proof.
  unfold run, script. generalize {| df := loaded; page := [] |} as e0.
  intros e0. unfold bind at 1.
  destruct (gender_section w e0) as [[u1|x1] e1]; [|eexists; reflexivity].
  unfold bind at 1.
  destruct (scatter_section w e1) as [[u2|x2] e2]; [|eexists; reflexivity].
  unfold bind at 1.
  pose proof (pie_section_rebinds_df w e2) as D3.
  destruct (pie_section w e2) as [[u3|x3] e3]; [|eexists; reflexivity].
  unfold bind at 1.
  pose proof (category_section_keeps_sample w e3 D3) as D4.
  destruct (category_section w e3) as [[u4|x4] e4]; [|eexists; reflexivity].
  simpl in D4. rewrite (age_section_on_sample w e4 D4).
  eexists. reflexivity.
Qed.

End ScriptFacts.


(** ** binary64 *)

Lemma float_zero_cases (b : float) :
  (b =? 0)%float = true -> b = 0%float \/ b = (-0)%float.
Proof.
  rewrite eqb_spec. intros E.
  assert (Z : exists sg, Prim2SF b = S754_zero sg).
  { destruct (Prim2SF b) as [sg|sg| |sg m e].
    - exists sg. reflexivity.
    - destruct sg; discriminate E.
    - discriminate E.
    - destruct sg; discriminate E. }
  destruct Z as [[|] Z].
  - right. apply Prim2SF_inj. rewrite Z. reflexivity.
  - left. apply Prim2SF_inj. rewrite Z. reflexivity.
Qed.

Lemma weighted_mean_zero (b1 b2 b3 : float) :
  (b1 =? 0)%float = true -> (b2 =? 0)%float = true ->
  (b3 =? 0)%float = true ->
  weighted_mean b1 b2 b3 = nan.
Proof.
  intros Z1 Z2 Z3.
  destruct (float_zero_cases b1 Z1), (float_zero_cases b2 Z2),
    (float_zero_cases b3 Z3); subst; reflexivity.
Qed.

Lemma example_table_well_formed : well_formed example_table.
Proof. repeat constructor. Qed.

Lemma average_family_size_formula_witness :
  well_formed example_table /\
  exists t' col,
    average_family_size_1 example_table = Ok t' /\
    getitem t' avg_col = Ok col /\
    List.length col = nrows example_table /\
    forall i b1 b2 b3,
      nth_error example_b1 i = Some b1 ->
      nth_error example_b2 i = Some b2 ->
      nth_error example_b3 i = Some b3 ->
      nth_error col i = Some (VNum (weighted_mean b1 b2 b3)).
Proof.
  split.
  - exact example_table_well_formed.
  - apply (average_family_size_formula (F:=float) example_table
             example_b1 example_b2 example_b3).
    + reflexivity.
    + reflexivity.
    + reflexivity.
    + exact example_table_well_formed.
Defined.

(** C3: on a table of binary64 numbers, computing the derived column does
    not raise, and every town whose three buckets are zero gets NaN. *)
Theorem zero_buckets_yield_nan (t : DataFrame float) (l1 l2 l3 : list float) :
  getitem t bucket_1_3 = Ok (map VNum l1) ->
  getitem t bucket_4_6 = Ok (map VNum l2) ->
  getitem t bucket_7_up = Ok (map VNum l3) ->
  well_formed t ->
  exists t' col,
    average_family_size_1 t = Ok t' /\
    getitem t' avg_col = Ok col /\
    forall i b1 b2 b3,
      nth_error l1 i = Some b1 -> nth_error l2 i = Some b2 ->
      nth_error l3 i = Some b3 ->
      (b1 =? 0)%float = true -> (b2 =? 0)%float = true ->
      (b3 =? 0)%float = true ->
      nth_error col i = Some (VNum nan).
Proof.
  intros G1 G2 G3 W.
  destruct (average_family_size_1_column t l1 l2 l3 G1 G2 G3 W)
    as (t' & D & G).
  exists t', (map VNum (derived_column l1 l2 l3)).
  repeat split; try assumption.
  intros i b1 b2 b3 H1 H2 H3 Z1 Z2 Z3.
  rewrite <- (weighted_mean_zero b1 b2 b3) by assumption.
  apply map_nth_error. apply derived_column_nth; assumption.
Qed.

Lemma zero_buckets_yield_nan_witness :
  well_formed example_table /\
  exists t' col,
    average_family_size_1 example_table = Ok t' /\
    getitem t' avg_col = Ok col /\
    forall i b1 b2 b3,
      nth_error example_b1 i = Some b1 ->
      nth_error example_b2 i = Some b2 ->
      nth_error example_b3 i = Some b3 ->
      (b1 =? 0)%float = true -> (b2 =? 0)%float = true ->
      (b3 =? 0)%float = true ->
      nth_error col i = Some (VNum nan).
Proof.
  split.
  - exact example_table_well_formed.
  - apply (zero_buckets_yield_nan example_table
             example_b1 example_b2 example_b3).
    + reflexivity.
    + reflexivity.
    + reflexivity.
    + exact example_table_well_formed.
Defined.

(** The second town of the example table has three zero buckets: its
    derived cell is NaN, and the computation returns. *)
Example zero_buckets_example :
  exists t',
    average_family_size_1 example_table = Ok t' /\
    getitem t' avg_col
    = Ok [VNum 1.5; VNum nan; VNum 0x1.7ffffffffffffp+0;
          VNum 0x1.c000000000001p+2; VNum 5.125; VNum 3.25]%float.
Proof. eexists. split; reflexivity. Qed.

(** ** The family size between its bounds

    Without rounding, the weighted mean of non-negative buckets lies between
    the smallest and the largest weight. *)

Lemma exact_weighted_mean (b1 b2 b3 : Q) :
  (0 <= b1)%Q -> (0 <= b2)%Q -> (0 <= b3)%Q -> ~ (b1 + b2 + b3 == 0)%Q ->
  exists q,
    weighted_mean (Exact b1) (Exact b2) (Exact b3) = Exact q /\
    (3 # 2 <= q)%Q /\ (q <= 7)%Q /\
    (q == 3 # 2 -> b2 == 0 /\ b3 == 0)%Q /\
    (q == 7 -> b1 == 0 /\ b2 == 0)%Q.
Proof.
  intros P1 P2 P3 NZ. unfold weighted_mean. simpl.
  destruct (Qeq_bool (b1 + b2 + b3) 0) eqn:E.
  - apply Qeq_bool_iff in E. contradiction.
  - eexists. split; [reflexivity|].
    assert (D : (0 < b1 + b2 + b3)%Q) by lra.
    set (N := ((3 # 2) * b1 + inject_Z 5 * b2 + inject_Z 7 * b3)%Q).
    assert (EN : (N == (3 # 2) * b1 + 5 * b2 + 7 * b3)%Q)
      by (unfold N; reflexivity).
    assert (M : (N / (b1 + b2 + b3) * (b1 + b2 + b3) == N)%Q)
      by (field; lra).
    split; [apply Qle_shift_div_l; lra|].
    split; [apply Qle_shift_div_r; lra|].
    split; intros Hq; rewrite Hq in M; split; lra.
Qed.

(** ** binary64: whole-number buckets

    Whole numbers below [2 ^ 48], their products by 1.5, 5 and 7 and the
    sums of these are binary64 numbers, so the numerator and the denominator
    of the formula are computed without rounding; only the division rounds,
    once, to the nearest binary64 number, and 1.5 and 7 are binary64
    numbers. *)

Section WholeBuckets.

Local Open Scope Z_scope.















































End WholeBuckets.





(** ** Concrete runs in binary64 *)

Lemma example_towns_NoDup : NoDup example_towns.
Proof.
  unfold example_towns.
  repeat (constructor; [simpl; intuition discriminate|]). constructor.
Qed.

Lemma example_df_plot_well_formed : well_formed example_df_plot.
Proof. repeat constructor. Qed.

Lemma truncation_takes_first_rows_witness :
  let n := Nat.min (Z.to_nat 10) (nrows example_table) in
  truncation_flow example_table 10
  = Ok [ (town_col, firstn n (map VStr example_towns));
         (women_col,
          firstn n [VNum 51; VNum 52; VNum 50; VNum 49; VNum 50.5;
                    VNum 48]%float);
         (men_col,
          firstn n [VNum 49; VNum 48; VNum 50; VNum 51; VNum 49.5;
                    VNum 52]%float) ] /\
  List.length (firstn n (map (@VStr float) example_towns)) = n /\
  List.length (firstn n [VNum 51; VNum 52; VNum 50; VNum 49; VNum 50.5;
                         VNum 48]%float) = n /\
  List.length (firstn n [VNum 49; VNum 48; VNum 50; VNum 51; VNum 49.5;
                         VNum 52]%float) = n /\
  (10%Z = 10%Z -> n = if (10 <=? nrows example_table)%nat then 10
                      else nrows example_table).
Proof.
  apply (truncation_takes_first_rows (F:=float) example_table).
  - reflexivity.
  - reflexivity.
  - reflexivity.
  - exact example_table_well_formed.
  - simpl. left. reflexivity.
Defined.

Lemma melt_long_format_witness :
  let m := nrows example_table in
  let cs := [women_col; youth_col] in
  let ss := [ [VNum 51; VNum 52; VNum 50; VNum 49; VNum 50.5; VNum 48];
              [VNum 20; VNum 21; VNum 22; VNum 19; VNum 18; VNum 23]
            ]%float in
  exists T C P fig,
    category_flow example_table cs
    = Ok [(town_col, T); ("Category", C); ("Percentage", P)] /\
    List.length T = 2 * m /\ List.length C = 2 * m /\
    List.length P = 2 * m /\
    (forall j i c s,
       nth_error cs j = Some c -> nth_error ss j = Some s -> i < m ->
       nth_error T (j * m + i) = nth_error (map VStr example_towns) i /\
       nth_error C (j * m + i) = Some (VStr c) /\
       nth_error P (j * m + i) = nth_error s i) /\
    px Bar [(town_col, T); ("Category", C); ("Percentage", P)]
       "Town" "Percentage" (Some "Category") None = Ok fig /\
    fig_data fig = [(town_col, T); ("Category", C); ("Percentage", P)] /\
    (cs = [] -> T = [] /\ C = [] /\ P = []).
Proof.
  apply (melt_long_format (F:=float) example_table).
  - reflexivity.
  - exact example_table_well_formed.
  - repeat constructor.
  - intros c I. simpl in *. intuition.
  - repeat (constructor; [simpl; intuition discriminate|]). constructor.
Defined.

Lemma selected_towns_highlighted_once_witness :
  let selected := ["Aabdine"; "Aabadiyeh"] in
  let xs := map VNum example_avg in
  let ys := map VNum example_elderly in
  exists fig' overlays,
    annotate example_df_plot example_fig selected = Ok fig' /\
    fig_overlays fig' = fig_overlays example_fig ++ overlays /\
    List.length overlays = List.length selected /\
    (forall k t,
       nth_error selected k = Some t ->
       exists i x y,
         nth_error example_towns i = Some t /\
         nth_error xs i = Some x /\ nth_error ys i = Some y /\
         nth_error overlays k
         = Some {| trace_x := [x]; trace_y := [y];
                   trace_text := [VStr t] |}) /\
    flat_map (@trace_text float) overlays = map VStr selected /\
    NoDup (flat_map (@trace_text float) overlays).
Proof.
  apply (selected_towns_highlighted_once (F:=float) example_df_plot
           example_fig example_towns).
  - reflexivity.
  - reflexivity.
  - reflexivity.
  - exact example_df_plot_well_formed.
  - exact example_towns_NoDup.
  - intros t I. simpl in *. intuition.
  - repeat (constructor; [simpl; intuition discriminate|]). constructor.
Defined.

Lemma absent_town_adds_empty_trace_witness :
  let selected := ["Aabdine"; "Beirut"] in
  exists fig' overlays,
    annotate example_df_plot example_fig selected = Ok fig' /\
    fig_kind fig' = fig_kind example_fig /\
    fig_data fig' = fig_data example_fig /\
    fig_x fig' = fig_x example_fig /\ fig_y fig' = fig_y example_fig /\
    fig_color fig' = fig_color example_fig /\
    fig_hover fig' = fig_hover example_fig /\
    fig_overlays fig' = fig_overlays example_fig ++ overlays /\
    List.length overlays = List.length selected /\
    forall k t,
      nth_error selected k = Some t ->
      ~ In (VStr t) (map (@VStr float) example_towns) ->
      nth_error overlays k
      = Some {| trace_x := []; trace_y := []; trace_text := [] |}.
Proof.
  apply (absent_town_adds_empty_trace (F:=float) example_df_plot
           example_fig (map VStr example_towns) (map VNum example_avg)
           (map VNum example_elderly)).
  - reflexivity.
  - reflexivity.
  - reflexivity.
Defined.

(** The name that is no town of the table gives the second, empty trace. *)
Example absent_town_example :
  exists fig',
    annotate example_df_plot example_fig ["Aabdine"; "Beirut"] = Ok fig' /\
    fig_overlays fig'
    = [ {| trace_x := [VNum 5.125%float]; trace_y := [VNum 8%float];
           trace_text := [VStr "Aabdine"] |};
        {| trace_x := []; trace_y := []; trace_text := [] |} ].
Proof. eexists. split; reflexivity. Qed.

Lemma pie_slices_are_raw_values_witness :
  (exists selected_row,
     pie_data (@data float Binary64) "Town B"
     = Ok (selected_row,
           [ ("Gender", [VStr "Women"; VStr "Men"]);
             ("Percentage", [VNum 60%float; VNum 40%float]) ])) /\
  (forall (wd : Widgets) (e : Env float) (j : nat) (wv mv : value float),
     submit_button wd = true ->
     nth_error ["Town A"; "Town B"; "Town C"] j = Some (selected_town wd) ->
     nth_error [VNum (of_int 55); VNum (of_int 60); VNum (of_int 65)] j
     = Some wv ->
     nth_error [VNum (of_int 45); VNum (of_int 40); VNum (of_int 35)] j
     = Some mv ->
     pie_section wd e
     = (Ok tt,
        {| df := data;
           page := page e ++
             [ {| fig_kind := Pie;
                  fig_data :=
                    [ ("Gender", [VStr "Women"; VStr "Men"]);
                      ("Percentage", [wv; mv]) ];
                  fig_x := "Gender"; fig_y := "Percentage";
                  fig_color := None; fig_hover := None;
                  fig_overlays := [] |} ] |})) /\
  (forall (wd : Widgets) (e : Env float),
     submit_button wd = false ->
     pie_section wd e = (Ok tt, {| df := data; page := page e |})) /\
  (forall n sel cols ag (e : Env float),
     pie_section {| num_towns := n; selected_towns := sel;
                    selected_town := "Town B"; submit_button := true;
                    selected_columns := cols; age_group := ag |} e
     = (Ok tt,
        {| df := data;
           page := page e ++
             [ {| fig_kind := Pie;
                  fig_data :=
                    [ ("Gender", [VStr "Women"; VStr "Men"]);
                      ("Percentage",
                       [VNum (of_int 60); VNum (of_int 40)]) ];
                  fig_x := "Gender"; fig_y := "Percentage";
                  fig_color := None; fig_hover := None;
                  fig_overlays := [] |} ] |})).
Proof.
  apply (pie_slices_are_raw_values (F:=float) data
           ["Town A"; "Town B"; "Town C"]
           [VNum 55; VNum 60; VNum 65]%float
           [VNum 45; VNum 40; VNum 35]%float "Town B" 1).
  - reflexivity.
  - reflexivity.
  - reflexivity.
  - repeat constructor.
  - reflexivity.
  - intros j Hj. assert (j = 0) as -> by lia. discriminate.
  - reflexivity.
  - reflexivity.
Defined.

(** C2: the script binds the three-town sample to the variable [df] in the
    pie section, whatever the form holds, and the later sections read that
    variable.  On the six-town example table with the widgets untouched,
    the category chart is drawn from the three sample towns; choosing the
    youth column raises [KeyError]; the age-group section raises
    [KeyError] for the first bucket column, and it does so on every run that
    reaches it, so that no run completes. *)
Theorem sample_table_replaces_loaded_table :
  (forall (w : Widgets) (e : Env float),
     df (snd (pie_section w e)) = data) /\
  fst (run example_table default_widgets)
  = Raise (KeyError "Average family size - 1 to 3 members") /\
  df (snd (run example_table default_widgets)) = data /\
  nth_error (page (snd (run example_table default_widgets))) 2
  = Some {| fig_kind := Bar;
            fig_data :=
              [ ("Town", [VStr "Town A"; VStr "Town B"; VStr "Town C";
                          VStr "Town A"; VStr "Town B"; VStr "Town C"]);
                ("Category",
                 [VStr "Percentage of Women"; VStr "Percentage of Women";
                  VStr "Percentage of Women"; VStr "Percentage of Men";
                  VStr "Percentage of Men"; VStr "Percentage of Men"]);
                ("Percentage",
                 [VNum 55; VNum 60; VNum 65; VNum 45; VNum 40;
                  VNum 35]%float) ];
            fig_x := "Town"; fig_y := "Percentage";
            fig_color := Some "Category"; fig_hover := None;
            fig_overlays := [] |} /\
  (forall (pg : list (Figure float)),
     fst (category_section
            {| num_towns := 70; selected_towns := [];
               selected_town := "Town A"; submit_button := false;
               selected_columns := ["Percentage of Youth - 15-24 years"];
               age_group := "Percentage of Youth - 15-24 years" |}
            {| df := data; page := pg |})
     = Raise (KeyError "Percentage of Youth - 15-24 years")) /\
  (forall (loaded : DataFrame float) (w : Widgets),
     exists x, fst (run loaded w) = Raise x).
Proof.
  split; [exact pie_section_rebinds_df|].
  split; [reflexivity|].
  split; [reflexivity|].
  split; [reflexivity|].
  split; [reflexivity|].
  exact script_never_completes.
Qed.

(** * The rest of the script *)

(** ** Stripping the column names (lines 55, 86, 184) *)

Lemma lstrip_head (s : string) : head_is_space (lstrip s) = false.
Proof.
  induction s as [|c s IH]; simpl.
  - reflexivity.
  - destruct (is_space c) eqn:E; [exact IH | simpl; exact E].
Qed.

Lemma lstrip_fixed (s : string) : head_is_space s = false -> lstrip s = s.
Proof.
  destruct s as [|c s]; simpl; intros E; [reflexivity | now rewrite E].
Qed.

Lemma rstrip_last (s : string) : last_is_space (rstrip s) = false.
Proof.
  induction s as [|c s IH]; simpl.
  - reflexivity.
  - destruct (rstrip s) as [|c' r].
    + destruct (is_space c) eqn:E; simpl; [reflexivity | exact E].
    + exact IH.
Qed.

Lemma rstrip_fixed (s : string) : last_is_space s = false -> rstrip s = s.
Proof.
  induction s as [|c s IH]; intros E.
  - reflexivity.
  - destruct s as [|c' s'].
    + simpl in *. now rewrite E.
    + change (last_is_space (String c (String c' s')))
        with (last_is_space (String c' s')) in E.
      change (rstrip (String c (String c' s')))
        with (match rstrip (String c' s') with
              | EmptyString =>
                  if is_space c then EmptyString else String c EmptyString
              | r => String c r
              end).
      rewrite (IH E). reflexivity.
Qed.

Lemma rstrip_head (s : string) :
  head_is_space s = false -> head_is_space (rstrip s) = false.
Proof.
  destruct s as [|c s]; simpl; intros E; [reflexivity|].
  destruct (rstrip s); [rewrite E|]; simpl; exact E.
Qed.

Lemma strip_shape (s : string) :
  head_is_space (strip s) = false /\
  last_is_space (strip s) = false /\
  strip (strip s) = strip s.
Proof.
  unfold strip.
  pose proof (rstrip_head _ (lstrip_head s)) as Hh.
  pose proof (rstrip_last (lstrip s)) as Hl.
  repeat split; try assumption.
  rewrite (lstrip_fixed _ Hh). apply rstrip_fixed. exact Hl.
Qed.

Lemma strip_columns_twice {F : Type} (t : DataFrame F) :
  strip_columns (strip_columns t) = strip_columns t.
Proof.
  unfold strip_columns. rewrite map_map.
  apply map_ext. intros [c col]. simpl. f_equal. apply strip_shape.
Qed.

(** X1: [str.strip()] leaves a name that neither starts nor ends with a
    whitespace character, and stripping again changes nothing; so the three
    times the script strips the column names amount to the first one. *)
Theorem strip_idempotent :
  (forall s, head_is_space (strip s) = false /\
             last_is_space (strip s) = false /\
             strip (strip s) = strip s) /\
  (forall (F : Type) (t : DataFrame F),
     strip_columns (strip_columns t) = strip_columns t).
Proof.
  split; [exact strip_shape|]. intros F t. apply strip_columns_twice.
Qed.

Section ScriptSteps.

Context {F : Type} `{Arith F}.

Local Abbreviation VN := (@VNum F).

(** ** Assigning a column (lines 89, 214) *)

Lemma getitem_replace_other (t : DataFrame F) c c' s :
  c' <> c -> getitem (replace_column t c s) c' = getitem t c'.
Proof.
  intros N. induction t as [|[c0 s0] t IH]; simpl.
  - destruct (String.eqb_spec c c') as [E|_]; [congruence | reflexivity].
  - destruct (String.eqb_spec c0 c) as [->|_]; simpl.
    + destruct (String.eqb_spec c c') as [E|_]; [congruence | reflexivity].
    + rewrite IH. reflexivity.
Qed.

Lemma replace_column_names (t : DataFrame F) c s :
  map fst (replace_column t c s)
  = if has_column t c then map fst t else map fst t ++ [c].
Proof.
  unfold has_column. induction t as [|[c0 s0] t IH]; simpl.
  - reflexivity.
  - destruct (String.eqb c0 c); simpl; [reflexivity|].
    rewrite IH.
    destruct (existsb (fun col : string * Series F => String.eqb (fst col) c)
                t); reflexivity.
Qed.

Lemma replace_column_twice (t : DataFrame F) c s :
  replace_column (replace_column t c s) c s = replace_column t c s.
Proof.
  induction t as [|[c0 s0] t IH]; simpl.
  - rewrite String.eqb_refl. reflexivity.
  - destruct (String.eqb c0 c) eqn:E; simpl; rewrite E;
      [reflexivity | now rewrite IH].
Qed.

Lemma replace_column_lengths (n : nat) (t : DataFrame F) c s :
  List.length s = n ->
  Forall (fun col => List.length (snd col) = n) t ->
  Forall (fun col => List.length (snd col) = n) (replace_column t c s).
Proof.
  intros L. induction t as [|[c0 s0] t IH]; intros W; simpl.
  - repeat constructor. exact L.
  - apply Forall_cons_iff in W as [W0 Wt].
    destruct (String.eqb c0 c); constructor; auto.
Qed.

Lemma replace_column_shape (t : DataFrame F) c s :
  t <> [] -> List.length s = nrows t -> well_formed t ->
  nrows (replace_column t c s) = nrows t /\
  well_formed (replace_column t c s).
Proof.
  intros NE L W.
  assert (N : nrows (replace_column t c s) = nrows t).
  { destruct t as [|[c0 s0] t]; [contradiction|]. simpl.
    destruct (String.eqb c0 c); simpl; [exact L | reflexivity]. }
  split; [exact N|]. unfold well_formed. rewrite N.
  apply replace_column_lengths; assumption.
Qed.

Lemma setitem_aligned (t : DataFrame F) c s :
  t <> [] -> List.length s = nrows t ->
  setitem t c s = replace_column t c s.
Proof.
  intros NE L. destruct t as [|col t]; [contradiction|].
  unfold setitem. rewrite <- L, reindex_same. reflexivity.
Qed.

Lemma getitem_nonempty (t : DataFrame F) c s :
  getitem t c = Ok s -> t <> [].
Proof. destruct t; [discriminate | discriminate]. Qed.

(** X3: computing the derived column changes nothing else: the table keeps
    its rows and every other column, the new column takes the place of an
    'Average family size' column if there is one and the last place
    otherwise, and computing it again gives the same table. *)
Theorem average_family_size_keeps_table (t : DataFrame F)
    (l1 l2 l3 : list F) :
  getitem t bucket_1_3 = Ok (map VN l1) ->
  getitem t bucket_4_6 = Ok (map VN l2) ->
  getitem t bucket_7_up = Ok (map VN l3) ->
  well_formed t ->
  exists t',
    average_family_size_1 t = Ok t' /\
    nrows t' = nrows t /\
    well_formed t' /\
    (forall c, c <> avg_col -> getitem t' c = getitem t c) /\
    map fst t'
    = (if has_column t avg_col then map fst t else map fst t ++ [avg_col]) /\
    average_family_size_1 t' = Ok t'.
Proof.
  intros G1 G2 G3 W.
  pose proof (getitem_length _ _ _ W G1) as L1.
  pose proof (getitem_length _ _ _ W G2) as L2.
  pose proof (getitem_length _ _ _ W G3) as L3.
  rewrite length_map in L1, L2, L3.
  pose proof (getitem_nonempty _ _ _ G1) as NE.
  set (q := map VN (derived_column l1 l2 l3)).
  assert (Lq : List.length q = nrows t)
    by (unfold q; rewrite length_map, derived_column_length; congruence).
  assert (D : average_family_size_1 t = Ok (replace_column t avg_col q)).
  { rewrite <- (setitem_aligned t avg_col q NE Lq).
    apply average_family_size_1_numeric; try assumption; congruence. }
  destruct (replace_column_shape t avg_col q NE Lq W) as [N W'].
  exists (replace_column t avg_col q).
  split; [exact D|]. split; [exact N|]. split; [exact W'|].
  split; [intros c Hc; apply getitem_replace_other; exact Hc|].
  split; [apply replace_column_names|].
  rewrite (average_family_size_1_numeric _ l1 l2 l3).
  - fold q. rewrite setitem_aligned.
    + rewrite replace_column_twice. reflexivity.
    + destruct t; [contradiction|]. simpl.
      destruct p. destruct (String.eqb s avg_col); discriminate.
    + congruence.
  - rewrite getitem_replace_other by discriminate. exact G1.
  - rewrite getitem_replace_other by discriminate. exact G2.
  - rewrite getitem_replace_other by discriminate. exact G3.
  - congruence.
  - congruence.
Qed.

(** ** Gender by town (lines 55-83) *)

Lemma firstn_nth_error {A} (k : nat) (l : list A) (i : nat) :
  i < List.length (firstn k l) -> nth_error (firstn k l) i = nth_error l i.
Proof.
  revert l i. induction k as [|k IH]; intros [|a l] [|i] Hi; simpl in *;
    try lia; try reflexivity.
  apply IH. lia.
Qed.

Lemma slice_to_nth_error {A} (l : list A) (n : Z) (i : nat) :
  i < List.length (slice_to l n) ->
  nth_error (slice_to l n) i = nth_error l i.
Proof.
  unfold slice_to. destruct (0 <=? n)%Z; apply firstn_nth_error.
Qed.

Lemma slice_to_length {A B} (l : list A) (l' : list B) (n : Z) :
  List.length l = List.length l' ->
  List.length (slice_to l n) = List.length (slice_to l' n).
Proof.
  intros E. unfold slice_to.
  destruct (0 <=? n)%Z; rewrite !length_firstn, E; reflexivity.
Qed.

Lemma truncation_flow_slices (t : DataFrame F) (towns pw pm : Series F)
    (n : Z) :
  getitem t town_col = Ok towns ->
  getitem t women_col = Ok pw ->
  getitem t men_col = Ok pm ->
  well_formed t ->
  truncation_flow t n
  = Ok [ (town_col, slice_to towns n); (women_col, slice_to pw n);
         (men_col, slice_to pm n) ].
Proof.
  intros Gt Gw Gm W.
  pose proof (getitem_length _ _ _ W Gt) as Lt.
  pose proof (getitem_length _ _ _ W Gw) as Lw.
  pose proof (getitem_length _ _ _ W Gm) as Lm.
  unfold truncation_flow. rewrite Gt, Gw, Gm. unfold rbind. cbv zeta.
  rewrite (DataFrame_of_dict_aligned (F:=F))
    by (apply slice_to_length; congruence).
  reflexivity.
Qed.

Lemma gender_section_run (w : Widgets) (e : Env F)
    (towns pw pm : Series F) :
  getitem (strip_columns (df e)) town_col = Ok towns ->
  getitem (strip_columns (df e)) women_col = Ok pw ->
  getitem (strip_columns (df e)) men_col = Ok pm ->
  well_formed (strip_columns (df e)) ->
  gender_section w e
  = (Ok tt,
     {| df := strip_columns (df e);
        page := page e ++
          [ {| fig_kind := Bar;
               fig_data :=
                 [ (town_col,
                    slice_to towns (num_towns w)
                    ++ slice_to towns (num_towns w));
                   ("Gender",
                    repeat (VStr women_col)
                      (List.length (slice_to towns (num_towns w)))
                    ++ repeat (VStr men_col)
                         (List.length (slice_to towns (num_towns w))));
                   ("Percentage",
                    slice_to pw (num_towns w)
                    ++ slice_to pm (num_towns w)) ];
               fig_x := "Town"; fig_y := "Percentage";
               fig_color := Some "Gender"; fig_hover := None;
               fig_overlays := [] |} ] |}).
Proof.
  intros Gt Gw Gm W.
  unfold gender_section, strip_df_columns, bind, get_df, set_df, lift,
    plotly_chart. cbn [df page].
  rewrite (truncation_flow_slices _ towns pw pm) by assumption.
  unfold melt. simpl. unfold tile. simpl.
  rewrite !app_nil_r. reflexivity.
Qed.

(** X5: on a table that has the Town, Percentage of Women and Percentage
    of Men columns, the first section displays one grouped bar chart and
    leaves the table as it is.  With n rows kept by the slider, the chart's
    long table has 2n rows: row i is town i with its percentage of women,
    row n+i the same town with its percentage of men. *)
Theorem gender_chart_rows (w : Widgets) (e : Env F)
    (towns pw pm : Series F) :
  getitem (strip_columns (df e)) town_col = Ok towns ->
  getitem (strip_columns (df e)) women_col = Ok pw ->
  getitem (strip_columns (df e)) men_col = Ok pm ->
  well_formed (strip_columns (df e)) ->
  let n := List.length (slice_to towns (num_towns w)) in
  exists fig T G P,
    gender_section w e
    = (Ok tt, {| df := strip_columns (df e); page := page e ++ [fig] |}) /\
    fig_kind fig = Bar /\
    fig_data fig = [(town_col, T); ("Gender", G); ("Percentage", P)] /\
    List.length T = 2 * n /\ List.length G = 2 * n /\
    List.length P = 2 * n /\
    ((0 <= num_towns w)%Z ->
     n = Nat.min (Z.to_nat (num_towns w)) (nrows (strip_columns (df e)))) /\
    forall i, i < n ->
      nth_error T i = nth_error towns i /\
      nth_error G i = Some (VStr women_col) /\
      nth_error P i = nth_error pw i /\
      nth_error T (n + i) = nth_error towns i /\
      nth_error G (n + i) = Some (VStr men_col) /\
      nth_error P (n + i) = nth_error pm i.
Proof.
  intros Gt Gw Gm W n.
  pose proof (getitem_length _ _ _ W Gt) as Lt.
  pose proof (getitem_length _ _ _ W Gw) as Lw.
  pose proof (getitem_length _ _ _ W Gm) as Lm.
  assert (Nw : List.length (slice_to pw (num_towns w)) = n)
    by (apply slice_to_length; congruence).
  assert (Nm : List.length (slice_to pm (num_towns w)) = n)
    by (apply slice_to_length; congruence).
  eexists _, _, _, _.
  split; [apply (gender_section_run w e towns pw pm); assumption|].
  split; [reflexivity|]. split; [reflexivity|].
  split; [rewrite length_app; fold n; lia|].
  split; [rewrite length_app, !repeat_length; fold n; lia|].
  split; [rewrite length_app, Nw, Nm; lia|].
  split.
  - intros Hpos. unfold n. rewrite slice_to_nonneg by assumption.
    rewrite length_firstn, Lt. reflexivity.
  - intros i Hi. fold n.
    repeat split.
    + rewrite nth_error_app1 by exact Hi.
      apply slice_to_nth_error. exact Hi.
    + rewrite nth_error_app1 by (rewrite repeat_length; exact Hi).
      apply nth_error_repeat. exact Hi.
    + rewrite nth_error_app1 by (rewrite Nw; exact Hi).
      apply slice_to_nth_error. rewrite Nw. exact Hi.
    + rewrite nth_error_app2 by (fold n; lia).
      fold n. replace (n + i - n) with i by lia.
      apply slice_to_nth_error. exact Hi.
    + rewrite nth_error_app2 by (rewrite repeat_length; lia).
      rewrite repeat_length. replace (n + i - n) with i by lia.
      apply nth_error_repeat. exact Hi.
    + rewrite nth_error_app2 by (rewrite Nw; lia).
      rewrite Nw. replace (n + i - n) with i by lia.
      apply slice_to_nth_error. rewrite Nm. exact Hi.
Qed.

(** ** Family size against elderly population (lines 85-135) *)

Lemma existsb_value_eq_str (options : Series F) (t : string) :
  existsb (fun v => value_eq_str v t) options = true <-> In (VStr t) options.
Proof.
  rewrite existsb_exists. split.
  - intros (v & I & E). destruct v as [s|x]; simpl in E; [|discriminate].
    apply String.eqb_eq in E. subst. exact I.
  - intros I. exists (VStr t). split; [exact I|]. simpl.
    apply String.eqb_refl.
Qed.

Lemma multiselect_default_among_options (options : Series F)
    (default selected : list string) :
  Forall (fun t => In (VStr t) options) default ->
  multiselect options default selected = Ok selected.
Proof.
  intros A. unfold multiselect.
  replace (forallb (fun t => existsb (fun v => value_eq_str v t) options)
             default) with true; [reflexivity|].
  symmetry. apply forallb_forall. intros t I.
  apply existsb_value_eq_str. rewrite Forall_forall in A. auto.
Qed.

Lemma multiselect_default_missing (options : Series F)
    (default selected : list string) :
  ~ Forall (fun t => In (VStr t) options) default ->
  multiselect options default selected = Raise StreamlitAPIException.
Proof.
  intros A. unfold multiselect.
  destruct (forallb (fun t => existsb (fun v => value_eq_str v t) options)
              default) eqn:E; [|reflexivity].
  exfalso. apply A. apply Forall_forall. intros t I.
  apply existsb_value_eq_str.
  rewrite forallb_forall in E. auto.
Qed.

Lemma scatter_section_run (w : Widgets) (e : Env F)
    (towns ys : Series F) (l1 l2 l3 : list F) :
  Forall (fun t => In (VStr t) towns) default_towns ->
  getitem (strip_columns (df e)) town_col = Ok towns ->
  getitem (strip_columns (df e)) elderly_col = Ok ys ->
  getitem (strip_columns (df e)) bucket_1_3 = Ok (map VN l1) ->
  getitem (strip_columns (df e)) bucket_4_6 = Ok (map VN l2) ->
  getitem (strip_columns (df e)) bucket_7_up = Ok (map VN l3) ->
  well_formed (strip_columns (df e)) ->
  scatter_section w e
  = (Ok tt,
     {| df := replace_column (strip_columns (df e)) avg_col
                (map VN (derived_column l1 l2 l3));
        page := page e ++
          [ {| fig_kind := Scatter;
               fig_data :=
                 [ (town_col, towns);
                   (avg_col, map VN (derived_column l1 l2 l3));
                   (elderly_col, ys) ];
               fig_x := avg_col; fig_y := elderly_col;
               fig_color := None; fig_hover := Some town_col;
               fig_overlays :=
                 map (town_trace towns (map VN (derived_column l1 l2 l3)) ys)
                   (selected_towns w) |} ] |}).
Proof.
  intros Df Gt Gy G1 G2 G3 W.
  set (t := strip_columns (df e)) in *.
  set (q := map VN (derived_column l1 l2 l3)).
  pose proof (getitem_length _ _ _ W G1) as L1.
  pose proof (getitem_length _ _ _ W G2) as L2.
  pose proof (getitem_length _ _ _ W G3) as L3.
  rewrite length_map in L1, L2, L3.
  pose proof (getitem_nonempty _ _ _ Gt) as NE.
  assert (Lq : List.length q = nrows t)
    by (unfold q; rewrite length_map, derived_column_length; congruence).
  assert (D : average_family_size_1 t = Ok (replace_column t avg_col q)).
  { rewrite <- (setitem_aligned t avg_col q NE Lq).
    apply average_family_size_1_numeric; try assumption; congruence. }
  assert (Gt' : getitem (replace_column t avg_col q) town_col = Ok towns)
    by (rewrite getitem_replace_other by discriminate; exact Gt).
  assert (Gy' : getitem (replace_column t avg_col q) elderly_col = Ok ys)
    by (rewrite getitem_replace_other by discriminate; exact Gy).
  pose proof (getitem_replace_column t avg_col q) as Gq.
  unfold scatter_section, strip_df_columns, bind, get_df, set_df, lift,
    plotly_chart. cbn [df page]. fold t.
  rewrite D, Gt'.
  rewrite (multiselect_default_among_options towns _ _ Df).
  rewrite (select_columns (F:=F) _ [town_col; avg_col; elderly_col]
             [towns; q; ys]) by (repeat constructor; assumption).
  cbn [combine].
  change (px Scatter [(town_col, towns); (avg_col, q); (elderly_col, ys)]
            avg_col elderly_col None (Some town_col))
    with (Ok {| fig_kind := Scatter;
                fig_data := [(town_col, towns); (avg_col, q);
                             (elderly_col, ys)];
                fig_x := avg_col; fig_y := elderly_col;
                fig_color := None; fig_hover := Some town_col;
                fig_overlays := @nil (Trace F) |}).
  cbv beta iota.
  rewrite (annotate_traces (F:=F) _ towns q ys) by reflexivity.
  reflexivity.
Qed.

(** X6: on a table with the Town and elderly columns and numeric bucket
    columns, whose towns include the six defaults of the multiselect, the
    second section adds the derived column to the table and displays one
    scatter plot.  The plot keeps every town of the table, those with an
    undefined family size too, and it carries one added trace for each
    selected town, in the order of the selection. *)
Theorem scatter_chart_keeps_every_town (w : Widgets) (e : Env F)
    (towns ys : Series F) (l1 l2 l3 : list F) :
  Forall (fun t => In (VStr t) towns) default_towns ->
  getitem (strip_columns (df e)) town_col = Ok towns ->
  getitem (strip_columns (df e)) elderly_col = Ok ys ->
  getitem (strip_columns (df e)) bucket_1_3 = Ok (map VN l1) ->
  getitem (strip_columns (df e)) bucket_4_6 = Ok (map VN l2) ->
  getitem (strip_columns (df e)) bucket_7_up = Ok (map VN l3) ->
  well_formed (strip_columns (df e)) ->
  exists e' fig xs,
    scatter_section w e = (Ok tt, e') /\
    page e' = page e ++ [fig] /\
    getitem (df e') avg_col = Ok xs /\
    (forall c, c <> avg_col ->
       getitem (df e') c = getitem (strip_columns (df e)) c) /\
    fig_kind fig = Scatter /\
    fig_data fig = [(town_col, towns); (avg_col, xs); (elderly_col, ys)] /\
    List.length xs = List.length towns /\
    (forall i b1 b2 b3,
       nth_error l1 i = Some b1 -> nth_error l2 i = Some b2 ->
       nth_error l3 i = Some b3 ->
       nth_error xs i = Some (VNum (weighted_mean b1 b2 b3))) /\
    List.length (fig_overlays fig) = List.length (selected_towns w).
Proof.
  intros Df Gt Gy G1 G2 G3 W.
  pose proof (getitem_length _ _ _ W Gt) as Lt.
  pose proof (getitem_length _ _ _ W G1) as L1.
  pose proof (getitem_length _ _ _ W G2) as L2.
  pose proof (getitem_length _ _ _ W G3) as L3.
  rewrite length_map in L1, L2, L3.
  eexists _, _, _.
  split; [apply (scatter_section_run w e towns ys l1 l2 l3); assumption|].
  cbn [df page fig_kind fig_data fig_overlays].
  split; [reflexivity|].
  split; [apply getitem_replace_column|].
  split; [intros c Hc; apply getitem_replace_other; exact Hc|].
  split; [reflexivity|]. split; [reflexivity|].
  split; [rewrite length_map, derived_column_length; congruence|].
  split; [|apply length_map].
  intros i b1 b2 b3 H1 H2 H3. apply map_nth_error.
  apply derived_column_nth; assumption.
Qed.

(** ** The annotation loop on a table with repeated town names *)

Lemma mask_select_count {A} (names : list string) (t : string)
    (xs : list A) :
  List.length xs = List.length names ->
  List.length (mask_select (eq_mask (map (@VStr F) names) t) xs)
  = count_occ string_dec names t.
Proof.
  revert xs. induction names as [|n names IH]; intros [|x xs] E;
    simpl in *; try discriminate; try reflexivity.
  injection E as E.
  destruct (String.eqb_spec n t) as [->|Hneq].
  - destruct (string_dec t t) as [_|C]; [|contradiction].
    simpl. f_equal. apply IH. exact E.
  - destruct (string_dec n t) as [C|_]; [contradiction|].
    apply IH. exact E.
Qed.

Lemma mask_select_labels (names : list string) (t : string) :
  mask_select (eq_mask (map (@VStr F) names) t) (map (@VStr F) names)
  = repeat (VStr t) (count_occ string_dec names t).
Proof.
  induction names as [|n names IH]; simpl; [reflexivity|].
  destruct (String.eqb_spec n t) as [->|Hneq].
  - destruct (string_dec t t) as [_|C]; [|contradiction].
    simpl. f_equal. exact IH.
  - destruct (string_dec n t) as [C|_]; [contradiction|]. exact IH.
Qed.

(** X8: whatever the table and the selection, the trace the loop adds for
    a selected town holds as many points as the table has rows of that
    name, each labelled with the name: none for a name that is absent, one
    for a unique name, several when the name is repeated. *)
Theorem annotation_trace_counts_rows (df_plot : DataFrame F)
    (fig : Figure F) (names : list string) (xs ys : Series F)
    (selected : list string) :
  getitem df_plot town_col = Ok (map VStr names) ->
  getitem df_plot avg_col = Ok xs ->
  getitem df_plot elderly_col = Ok ys ->
  well_formed df_plot ->
  exists fig' overlays,
    annotate df_plot fig selected = Ok fig' /\
    fig_overlays fig' = fig_overlays fig ++ overlays /\
    forall k t,
      nth_error selected k = Some t ->
      exists tr,
        nth_error overlays k = Some tr /\
        trace_text tr = repeat (VStr t) (count_occ string_dec names t) /\
        List.length (trace_x tr) = count_occ string_dec names t /\
        List.length (trace_y tr) = count_occ string_dec names t.
Proof.
  intros Gt Gx Gy W.
  pose proof (getitem_length _ _ _ W Gt) as Lt.
  pose proof (getitem_length _ _ _ W Gx) as Lx.
  pose proof (getitem_length _ _ _ W Gy) as Ly.
  rewrite length_map in Lt.
  eexists _, (map (town_trace (map VStr names) xs ys) selected).
  split; [apply (annotate_traces (F:=F) _ _ _ _ _ Gt Gx Gy)|].
  split; [reflexivity|].
  intros k t Hk. eexists. split; [apply map_nth_error; exact Hk|].
  unfold town_trace. cbn [trace_text trace_x trace_y].
  split; [apply mask_select_labels|].
  split; apply mask_select_count; congruence.
Qed.

(** ** The pie chart form (lines 147-179) *)

Lemma pie_data_absent (d : DataFrame F) (towns : Series F) (town : string) :
  getitem d town_col = Ok towns ->
  ~ In (VStr town) towns ->
  pie_data d town = Raise IndexError.
Proof.
  intros G N. unfold pie_data. rewrite G. cbn [rbind].
  destruct d as [|[c0 s0] d']; [discriminate G|].
  unfold iloc0. cbn [filter_rows map nrows fst snd].
  rewrite (mask_select_absent (F:=F) towns town s0 N). reflexivity.
Qed.

Lemma pie_section_not_submitted (w : Widgets) (e : Env F) :
  submit_button w = false ->
  pie_section w e = (Ok tt, {| df := data; page := page e |}).
Proof.
  intros S. unfold pie_section, bind, get_df, set_df, lift, ret.
  cbn [df page]. rewrite S. reflexivity.
Qed.

Lemma pie_section_submitted (w : Widgets) (e : Env F) :
  submit_button w = true ->
  In (selected_town w) ["Town A"; "Town B"; "Town C"] ->
  exists fig,
    pie_section w e = (Ok tt, {| df := data; page := page e ++ [fig] |}) /\
    fig_kind fig = Pie /\ nrows (fig_data fig) = 2.
Proof.
  intros S I. unfold pie_section, bind, get_df, set_df, lift, plotly_chart.
  cbn [df page]. rewrite S.
  destruct I as [<-|[<-|[<-|[]]]]; eexists; split;
    try reflexivity; split; reflexivity.
Qed.

(** X7: submitting the form with a name that is no town of the table in
    [df] raises [IndexError] at [.iloc[0]]: no pie is displayed.  On the
    sample table that is every name other than Town A, Town B and
    Town C. *)
Theorem pie_unknown_town_raises (d : DataFrame F) (towns : Series F)
    (town : string) :
  getitem d town_col = Ok towns ->
  ~ In (VStr town) towns ->
  pie_data d town = Raise IndexError /\
  forall (w : Widgets) (e : Env F),
    submit_button w = true ->
    ~ In (selected_town w) ["Town A"; "Town B"; "Town C"] ->
    pie_section w e = (Raise IndexError, {| df := data; page := page e |}).
Proof.
  intros G N. split; [exact (pie_data_absent d towns town G N)|].
  intros w e S NI.
  unfold pie_section, bind, get_df, set_df, lift. cbn [df page].
  rewrite S.
  rewrite (pie_data_absent data
             [VStr "Town A"; VStr "Town B"; VStr "Town C"]
             (selected_town w)); [reflexivity | reflexivity |].
  intros I. apply NI. simpl in I |- *.
  destruct I as [E|[E|[E|[]]]]; injection E as E; auto.
Qed.

(** ** The category chart on the sample table (lines 183-204) *)

Lemma getitem_cases (t : DataFrame F) (c : string) :
  (exists s, getitem t c = Ok s /\ has_column t c = true) \/
  (getitem t c = Raise (KeyError c) /\ has_column t c = false).
Proof.
  unfold has_column. induction t as [|[c0 s0] t IH]; simpl.
  - right. split; reflexivity.
  - destruct (String.eqb c0 c); simpl.
    + left. eexists. split; reflexivity.
    + exact IH.
Qed.

Lemma select_sample_columns (cs : list string) :
  incl cs [women_col; men_col] ->
  exists ss,
    Forall2 (fun c s => getitem (@data F _) c = Ok s) cs ss /\
    Forall (fun s : Series F => List.length s = 3) ss.
Proof.
  induction cs as [|c cs IH]; intros I.
  - exists []. split; constructor.
  - destruct IH as (ss & S & L).
    { intros x Hx. apply I. right. exact Hx. }
    destruct (I c (or_introl eq_refl)) as [<-|[<-|[]]].
    + eexists (_ :: ss). split; constructor; try eassumption; reflexivity.
    + eexists (_ :: ss). split; constructor; try eassumption; reflexivity.
Qed.

Lemma select_cons (t : DataFrame F) (c : string) (cs : list string) :
  select t (c :: cs)
  = let* s := getitem t c in
    let* rest := select t cs in
    Ok ((c, s) :: rest).
Proof. unfold select. simpl. destruct (getitem t c); reflexivity. Qed.

Lemma select_sample_missing (cs : list string) :
  incl cs category_options ->
  ~ incl cs [women_col; men_col] ->
  exists x,
    (x = youth_col \/ x = elderly_col) /\
    select (@data F _) cs = Raise (KeyError x).
Proof.
  induction cs as [|c cs IH]; intros I NI.
  - exfalso. apply NI. intros x [].
  - assert (Ics : incl cs category_options)
      by (intros x Hx; apply I; right; exact Hx).
    destruct (I c (or_introl eq_refl)) as [<-|[<-|[<-|[<-|[]]]]].
    + destruct (IH Ics) as (x & Hx & E).
      { intros J. apply NI. intros y [<-|Hy]; [left; reflexivity | auto]. }
      exists x. split; [exact Hx|].
      rewrite select_cons, E. reflexivity.
    + destruct (IH Ics) as (x & Hx & E).
      { intros J. apply NI.
        intros y [<-|Hy]; [right; left; reflexivity | auto]. }
      exists x. split; [exact Hx|].
      rewrite select_cons, E. reflexivity.
    + exists youth_col. split; [left; reflexivity | reflexivity].
    + exists elderly_col. split; [right; reflexivity | reflexivity].
Qed.

Lemma category_flow_sample (cs : list string) :
  incl cs [women_col; men_col] ->
  exists T C P,
    category_flow (@data F _) cs
    = Ok [(town_col, T); ("Category", C); ("Percentage", P)] /\
    List.length T = List.length cs * 3.
Proof.
  intros I. destruct (select_sample_columns cs I) as (ss & S & L).
  assert (NT : ~ In town_col cs).
  { intros J. apply I in J. simpl in J.
    repeat (destruct J as [J|J]; [discriminate J|]). exact J. }
  pose proof (Forall2_length S) as Ek.
  eexists _, _, _. split.
  - unfold category_flow.
    rewrite (select_columns (F:=F) data (town_col :: cs)
               ([VStr "Town A"; VStr "Town B"; VStr "Town C"] :: ss))
      by (constructor; [reflexivity | exact S]).
    cbn [combine rbind].
    rewrite (melt_value_columns (F:=F)) by exact NT. reflexivity.
  - destruct (tile_block (F:=F)
                [VStr "Town A"; VStr "Town B"; VStr "Town C"]
                (List.length (combine cs ss))) as [LT _].
    rewrite LT, length_combine, <- Ek, Nat.min_id. reflexivity.
Qed.

(** X9: once [df] holds the sample table, the category chart can only be
    drawn from the two gender columns: a selection among them gives a long
    table of three rows for each selected column, and any selection that
    includes the youth or the elderly column raises [KeyError] for one of
    those two. *)
Theorem category_flow_on_sample (cs : list string) :
  incl cs category_options ->
  (incl cs [women_col; men_col] ->
   exists long,
     category_flow (@data F _) cs = Ok long /\
     nrows long = 3 * List.length cs) /\
  (~ incl cs [women_col; men_col] ->
   exists x,
     (x = youth_col \/ x = elderly_col) /\
     category_flow (@data F _) cs = Raise (KeyError x)).
Proof.
  intros I. split.
  - intros J. destruct (category_flow_sample cs J) as (T & C & P & E & L).
    eexists. split; [exact E|]. cbn [nrows]. lia.
  - intros NJ. destruct (select_sample_missing cs I NJ) as (x & Hx & E).
    exists x. split; [exact Hx|].
    unfold category_flow. rewrite select_cons, E. reflexivity.
Qed.

Lemma category_section_sample (w : Widgets) (e : Env F) :
  df e = data ->
  incl (selected_columns w) [women_col; men_col] ->
  exists fig,
    category_section w e
    = (Ok tt, {| df := data; page := page e ++ [fig] |}) /\
    fig_kind fig = Bar.
Proof.
  intros D I.
  destruct (category_flow_sample (selected_columns w) I)
    as (T & C & P & E & _).
  unfold category_section, strip_df_columns, bind, get_df, set_df, lift,
    plotly_chart. cbn [df page]. rewrite D, strip_columns_data, E.
  eexists. split; reflexivity.
Qed.

(** ** A whole run *)

(** X10: on a table with the expected columns whose towns include the six
    defaults of the multiselect, with a category selection among the two
    gender columns and a pie form that is either not submitted or submitted
    with a sample town, a run displays the gender chart, the first scatter
    plot, the pie if submitted and the category chart, and then stops with
    [KeyError] for the first bucket column, leaving the sample table in
    [df]. *)
Theorem run_displays_charts_then_raises (loaded : DataFrame F)
    (w : Widgets) (towns pw pm ys : Series F) (l1 l2 l3 : list F) :
  Forall (fun t => In (VStr t) towns) default_towns ->
  getitem (strip_columns loaded) town_col = Ok towns ->
  getitem (strip_columns loaded) women_col = Ok pw ->
  getitem (strip_columns loaded) men_col = Ok pm ->
  getitem (strip_columns loaded) elderly_col = Ok ys ->
  getitem (strip_columns loaded) bucket_1_3 = Ok (map VN l1) ->
  getitem (strip_columns loaded) bucket_4_6 = Ok (map VN l2) ->
  getitem (strip_columns loaded) bucket_7_up = Ok (map VN l3) ->
  well_formed (strip_columns loaded) ->
  incl (selected_columns w) [women_col; men_col] ->
  (submit_button w = true ->
   In (selected_town w) ["Town A"; "Town B"; "Town C"]) ->
  fst (run loaded w) = Raise (KeyError bucket_1_3) /\
  df (snd (run loaded w)) = data /\
  map (@fig_kind F) (page (snd (run loaded w)))
  = if submit_button w then [Bar; Scatter; Pie; Bar]
    else [Bar; Scatter; Bar].
Proof.
  intros Df Gt Gw Gm Gy G1 G2 G3 W I S.
  assert (R : exists figs,
             run loaded w
             = (Raise (KeyError bucket_1_3),
                {| df := data; page := figs |}) /\
             map (@fig_kind F) figs
             = if submit_button w then [Bar; Scatter; Pie; Bar]
               else [Bar; Scatter; Bar]).
  { unfold run, script.
    unfold bind at 1.
    rewrite (gender_section_run w _ towns pw pm) by assumption.
    cbn [df page app].
    unfold bind at 1.
    rewrite (scatter_section_run w _ towns ys l1 l2 l3)
      by (cbn [df]; rewrite ?strip_columns_twice; assumption).
    cbn [df page app]. rewrite strip_columns_twice.
    unfold bind at 1.
    destruct (submit_button w) eqn:Sb.
    - match goal with
      | |- context [pie_section w ?e] =>
          destruct (pie_section_submitted w e Sb (S eq_refl))
            as (pie & -> & Kp & _)
      end.
      cbn [page app]. unfold bind at 1.
      match goal with
      | |- context [category_section w ?e] =>
          destruct (category_section_sample w e eq_refl I)
            as (bar & -> & Kb)
      end.
      cbn [page app].
      rewrite age_section_on_sample by reflexivity.
      eexists. split; [reflexivity|].
      cbn [map fig_kind]. rewrite Kp, Kb. reflexivity.
    - rewrite pie_section_not_submitted by exact Sb.
      cbn [page]. unfold bind at 1.
      match goal with
      | |- context [category_section w ?e] =>
          destruct (category_section_sample w e eq_refl I)
            as (bar & -> & Kb)
      end.
      cbn [page app].
      rewrite age_section_on_sample by reflexivity.
      eexists. split; [reflexivity|].
      cbn [map fig_kind]. rewrite Kb. reflexivity. }
  destruct R as (figs & -> & K). repeat split. exact K.
Qed.

Lemma scatter_section_default_missing (w : Widgets) (e : Env F)
    (towns : Series F) (l1 l2 l3 : list F) :
  ~ Forall (fun t => In (VStr t) towns) default_towns ->
  getitem (strip_columns (df e)) town_col = Ok towns ->
  getitem (strip_columns (df e)) bucket_1_3 = Ok (map VN l1) ->
  getitem (strip_columns (df e)) bucket_4_6 = Ok (map VN l2) ->
  getitem (strip_columns (df e)) bucket_7_up = Ok (map VN l3) ->
  well_formed (strip_columns (df e)) ->
  scatter_section w e
  = (Raise StreamlitAPIException,
     {| df := replace_column (strip_columns (df e)) avg_col
                (map VN (derived_column l1 l2 l3));
        page := page e |}).
Proof.
  intros Df Gt G1 G2 G3 W.
  set (t := strip_columns (df e)) in *.
  set (q := map VN (derived_column l1 l2 l3)).
  pose proof (getitem_length _ _ _ W G1) as L1.
  pose proof (getitem_length _ _ _ W G2) as L2.
  pose proof (getitem_length _ _ _ W G3) as L3.
  rewrite length_map in L1, L2, L3.
  pose proof (getitem_nonempty _ _ _ Gt) as NE.
  assert (Lq : List.length q = nrows t)
    by (unfold q; rewrite length_map, derived_column_length; congruence).
  assert (D : average_family_size_1 t = Ok (replace_column t avg_col q)).
  { rewrite <- (setitem_aligned t avg_col q NE Lq).
    apply average_family_size_1_numeric; try assumption; congruence. }
  assert (Gt' : getitem (replace_column t avg_col q) town_col = Ok towns)
    by (rewrite getitem_replace_other by discriminate; exact Gt).
  unfold scatter_section, strip_df_columns, bind, get_df, set_df, lift.
  cbn [df page]. fold t.
  rewrite D, Gt'.
  rewrite (multiselect_default_missing towns _ _ Df). reflexivity.
Qed.

(** X13: when the table has the expected columns but lacks one of the six
    default towns of the multiselect, the run displays the gender chart
    only: the second section adds the derived column and then stops at the
    multiselect with Streamlit's exception, before any scatter plot. *)
Theorem run_without_default_town (loaded : DataFrame F)
    (w : Widgets) (towns pw pm : Series F) (l1 l2 l3 : list F) :
  ~ Forall (fun t => In (VStr t) towns) default_towns ->
  getitem (strip_columns loaded) town_col = Ok towns ->
  getitem (strip_columns loaded) women_col = Ok pw ->
  getitem (strip_columns loaded) men_col = Ok pm ->
  getitem (strip_columns loaded) bucket_1_3 = Ok (map VN l1) ->
  getitem (strip_columns loaded) bucket_4_6 = Ok (map VN l2) ->
  getitem (strip_columns loaded) bucket_7_up = Ok (map VN l3) ->
  well_formed (strip_columns loaded) ->
  fst (run loaded w) = Raise StreamlitAPIException /\
  map (@fig_kind F) (page (snd (run loaded w))) = [Bar] /\
  getitem (df (snd (run loaded w))) avg_col
  = Ok (map VN (derived_column l1 l2 l3)).
Proof.
  intros Df Gt Gw Gm G1 G2 G3 W.
  assert (R : exists fig,
             run loaded w
             = (Raise StreamlitAPIException,
                {| df := replace_column (strip_columns loaded) avg_col
                           (map VN (derived_column l1 l2 l3));
                   page := [fig] |}) /\
             fig_kind fig = Bar).
  { unfold run, script.
    unfold bind at 1.
    rewrite (gender_section_run w _ towns pw pm) by assumption.
    cbn [df page app].
    unfold bind at 1.
    rewrite (scatter_section_default_missing w _ towns l1 l2 l3)
      by (cbn [df]; rewrite ?strip_columns_twice; assumption).
    cbn [df page]. rewrite strip_columns_twice.
    eexists. split; reflexivity. }
  destruct R as (fig & -> & K). cbn [fst snd df page map].
  rewrite K. repeat split. apply getitem_replace_column.
Qed.

(** X11: when the loaded table lacks the Town, the Percentage of Women or
    the Percentage of Men column, the run stops in the first section with
    [KeyError] for the first of them that is missing, and displays
    nothing. *)
Theorem run_without_gender_columns (loaded : DataFrame F) (w : Widgets) :
  has_column (strip_columns loaded) town_col
  && has_column (strip_columns loaded) women_col
  && has_column (strip_columns loaded) men_col = false ->
  exists c,
    In c [town_col; women_col; men_col] /\
    has_column (strip_columns loaded) c = false /\
    run loaded w
    = (Raise (KeyError c), {| df := strip_columns loaded; page := [] |}).
Proof.
  intros Hc.
  unfold run, script, gender_section, strip_df_columns, bind, get_df,
    set_df, lift. cbn [df page]. unfold truncation_flow.
  destruct (getitem_cases (strip_columns loaded) town_col)
    as [(s1 & -> & C1)|(-> & C1)];
    [|exists town_col; repeat split; simpl; auto].
  destruct (getitem_cases (strip_columns loaded) women_col)
    as [(s2 & -> & C2)|(-> & C2)];
    [|exists women_col; repeat split; simpl; auto].
  destruct (getitem_cases (strip_columns loaded) men_col)
    as [(s3 & -> & C3)|(-> & C3)];
    [|exists men_col; repeat split; simpl; auto].
  rewrite C1, C2, C3 in Hc. discriminate Hc.
Qed.

(** ** Family size against the chosen age group (lines 206-233) *)

Lemma getitem_has_column (t : DataFrame F) (c : string) (s : Series F) :
  getitem t c = Ok s -> has_column t c = true.
Proof.
  intros G. destruct (getitem_cases t c) as [(s' & _ & C)|(E & _)];
    [exact C | congruence].
Qed.

Lemma average_family_size_2_numeric (t : DataFrame F) l1 l2 l3 :
  getitem t bucket_1_3 = Ok (map VN l1) ->
  getitem t bucket_4_6 = Ok (map VN l2) ->
  getitem t bucket_7_up = Ok (map VN l3) ->
  well_formed t ->
  average_family_size_2 t
  = Ok (replace_column t avg_col (map VN (derived_column l1 l2 l3))).
Proof.
  intros G1 G2 G3 W.
  pose proof (getitem_length _ _ _ W G1) as L1.
  pose proof (getitem_length _ _ _ W G2) as L2.
  pose proof (getitem_length _ _ _ W G3) as L3.
  rewrite length_map in L1, L2, L3.
  change (average_family_size_2 t) with (average_family_size_1 t).
  rewrite (average_family_size_1_numeric t l1 l2 l3)
    by (try assumption; congruence).
  rewrite setitem_aligned; [reflexivity | |].
  - exact (getitem_nonempty _ _ _ G1).
  - rewrite length_map, derived_column_length; congruence.
Qed.

(** X12: taken by itself, the last section works on a table that has the
    Town column, the chosen age-group column and numeric bucket columns: it
    adds the derived column to the table and displays one scatter plot of
    the whole table, family size against the age group, coloured by
    town. *)
Theorem age_chart_on_full_table (w : Widgets) (e : Env F)
    (towns ys : Series F) (l1 l2 l3 : list F) :
  getitem (df e) town_col = Ok towns ->
  getitem (df e) (age_group w) = Ok ys ->
  getitem (df e) bucket_1_3 = Ok (map VN l1) ->
  getitem (df e) bucket_4_6 = Ok (map VN l2) ->
  getitem (df e) bucket_7_up = Ok (map VN l3) ->
  well_formed (df e) ->
  exists e' fig xs,
    age_section w e = (Ok tt, e') /\
    page e' = page e ++ [fig] /\
    getitem (df e') avg_col = Ok xs /\
    (forall c, c <> avg_col -> getitem (df e') c = getitem (df e) c) /\
    nrows (df e') = nrows (df e) /\
    fig_kind fig = Scatter /\ fig_data fig = df e' /\
    fig_x fig = avg_col /\ fig_y fig = age_group w /\
    fig_color fig = Some town_col /\ fig_overlays fig = [] /\
    forall i b1 b2 b3,
      nth_error l1 i = Some b1 -> nth_error l2 i = Some b2 ->
      nth_error l3 i = Some b3 ->
      nth_error xs i = Some (VNum (weighted_mean b1 b2 b3)).
Proof.
  intros Gt Gy G1 G2 G3 W.
  set (q := map VN (derived_column l1 l2 l3)).
  pose proof (getitem_length _ _ _ W G1) as L1.
  pose proof (getitem_length _ _ _ W G2) as L2.
  pose proof (getitem_length _ _ _ W G3) as L3.
  rewrite length_map in L1, L2, L3.
  assert (Lq : List.length q = nrows (df e))
    by (unfold q; rewrite length_map, derived_column_length; congruence).
  pose proof (getitem_replace_column (df e) avg_col q) as Gq.
  assert (Ct : has_column (replace_column (df e) avg_col q) town_col = true).
  { apply (getitem_has_column _ _ towns).
    rewrite getitem_replace_other by discriminate. exact Gt. }
  assert (Cy : has_column (replace_column (df e) avg_col q) (age_group w)
               = true).
  { destruct (String.eqb_spec (age_group w) avg_col) as [->|Hneq].
    - exact (getitem_has_column _ _ _ Gq).
    - apply (getitem_has_column _ _ ys).
      rewrite getitem_replace_other by exact Hneq. exact Gy. }
  pose proof (getitem_has_column _ _ _ Gq) as Cq.
  destruct (replace_column_shape (df e) avg_col q
              (getitem_nonempty _ _ _ Gt) Lq W) as [N _].
  eexists _, _, q.
  split.
  - unfold age_section, bind, get_df, set_df, lift, plotly_chart.
    rewrite (average_family_size_2_numeric (df e) l1 l2 l3)
      by assumption.
    fold q. cbn [df page]. unfold px, has_opt_column.
    rewrite Cq, Cy, Ct. cbn [andb]. reflexivity.
  - cbn [df page fig_kind fig_data fig_x fig_y fig_color fig_overlays].
    split; [reflexivity|]. split; [exact Gq|].
    split; [intros c Hc; apply getitem_replace_other; exact Hc|].
    split; [exact N|].
    repeat (split; [reflexivity|]).
    intros i b1 b2 b3 H1 H2 H3. apply map_nth_error.
    apply derived_column_nth; assumption.
Qed.

End ScriptSteps.

(** ** Missing bucket values in binary64 *)

Lemma is_nan_nan (b : float) : is_nan b = true -> b = nan.
Proof.
  unfold is_nan. rewrite eqb_spec. intros E.
  apply Prim2SF_inj. change (Prim2SF nan) with S754_nan.
  destruct (Prim2SF b) as [sg|sg| |sg m e]; try reflexivity.
  - discriminate E.
  - destruct sg; discriminate E.
  - unfold SFeqb, SFcompare in E.
    rewrite Z.compare_refl, Pos.compare_refl in E.
    destruct sg; discriminate E.
Qed.

Lemma add_nan_r (x : float) : (x + nan)%float = nan.
Proof.
  apply Prim2SF_inj. rewrite add_spec.
  change (Prim2SF nan) with S754_nan.
  destruct (Prim2SF x) as [[|]|[|]| |[|] m e]; reflexivity.
Qed.

Lemma add_nan_l (x : float) : (nan + x)%float = nan.
Proof.
  apply Prim2SF_inj. rewrite add_spec.
  change (Prim2SF nan) with S754_nan. reflexivity.
Qed.

Lemma mul_nan_r (x : float) : (x * nan)%float = nan.
Proof.
  apply Prim2SF_inj. rewrite mul_spec.
  change (Prim2SF nan) with S754_nan.
  destruct (Prim2SF x) as [[|]|[|]| |[|] m e]; reflexivity.
Qed.

Lemma div_nan_l (x : float) : (nan / x)%float = nan.
Proof.
  apply Prim2SF_inj. rewrite div_spec.
  change (Prim2SF nan) with S754_nan. reflexivity.
Qed.

Lemma weighted_mean_nan (b1 b2 b3 : float) :
  is_nan b1 = true \/ is_nan b2 = true \/ is_nan b3 = true ->
  weighted_mean b1 b2 b3 = nan.
Proof.
  unfold weighted_mean. cbn [fadd fmul fdiv Binary64].
  intros [N|[N|N]]; apply is_nan_nan in N; subst.
  - rewrite mul_nan_r, !add_nan_l. apply div_nan_l.
  - rewrite mul_nan_r, add_nan_r, add_nan_l. apply div_nan_l.
  - rewrite mul_nan_r, add_nan_r. apply div_nan_l.
Qed.

(** X4: a bucket cell that is missing (NaN) does not stop the computation
    of the derived column: the town of that row gets NaN, whatever its two
    other buckets are. *)
Theorem missing_bucket_yields_nan (t : DataFrame float)
    (l1 l2 l3 : list float) :
  getitem t bucket_1_3 = Ok (map VNum l1) ->
  getitem t bucket_4_6 = Ok (map VNum l2) ->
  getitem t bucket_7_up = Ok (map VNum l3) ->
  well_formed t ->
  exists t' col,
    average_family_size_1 t = Ok t' /\
    getitem t' avg_col = Ok col /\
    forall i b1 b2 b3,
      nth_error l1 i = Some b1 -> nth_error l2 i = Some b2 ->
      nth_error l3 i = Some b3 ->
      is_nan b1 = true \/ is_nan b2 = true \/ is_nan b3 = true ->
      nth_error col i = Some (VNum nan).
Proof.
  intros G1 G2 G3 W.
  destruct (average_family_size_1_column t l1 l2 l3 G1 G2 G3 W)
    as (t' & D & G).
  exists t', (map VNum (derived_column l1 l2 l3)).
  repeat split; try assumption.
  intros i b1 b2 b3 H1 H2 H3 N.
  rewrite <- (weighted_mean_nan b1 b2 b3 N).
  apply map_nth_error. apply derived_column_nth; assumption.
Qed.

(** ** Concrete runs of the sections *)

Lemma example_towns_hold_defaults :
  Forall (fun t => In (@VStr float t) (map VStr example_towns)) default_towns.
Proof.
  unfold default_towns, example_towns.
  repeat (apply Forall_cons; [simpl; tauto|]). constructor.
Qed.

Lemma average_family_size_keeps_table_witness :
  exists t',
    average_family_size_1 example_table = Ok t' /\
    nrows t' = nrows example_table /\
    well_formed t' /\
    (forall c, c <> avg_col -> getitem t' c = getitem example_table c) /\
    map fst t'
    = (if has_column example_table avg_col then map fst example_table
       else map fst example_table ++ [avg_col]) /\
    average_family_size_1 t' = Ok t'.
Proof.
  apply (average_family_size_keeps_table (F:=float) example_table
           example_b1 example_b2 example_b3).
  - reflexivity.
  - reflexivity.
  - reflexivity.
  - exact example_table_well_formed.
Defined.

Lemma missing_bucket_yields_nan_witness :
  exists t' col,
    average_family_size_1 example_table_missing = Ok t' /\
    getitem t' avg_col = Ok col /\
    forall i b1 b2 b3,
      nth_error [30; 25]%float i = Some b1 ->
      nth_error [nan; 60]%float i = Some b2 ->
      nth_error [20; 15]%float i = Some b3 ->
      is_nan b1 = true \/ is_nan b2 = true \/ is_nan b3 = true ->
      nth_error col i = Some (VNum nan).
Proof.
  apply (missing_bucket_yields_nan example_table_missing
           [30; 25]%float [nan; 60]%float [20; 15]%float).
  - reflexivity.
  - reflexivity.
  - reflexivity.
  - repeat constructor.
Defined.

Lemma gender_chart_rows_witness :
  let w := default_widgets in
  let towns := map (@VStr float) example_towns in
  let pw := [VNum 51; VNum 52; VNum 50; VNum 49; VNum 50.5;
             VNum 48]%float in
  let pm := [VNum 49; VNum 48; VNum 50; VNum 51; VNum 49.5;
             VNum 52]%float in
  let n := List.length (slice_to towns (num_towns w)) in
  exists fig T G P,
    gender_section w example_env
    = (Ok tt, {| df := strip_columns (df example_env);
                 page := page example_env ++ [fig] |}) /\
    fig_kind fig = Bar /\
    fig_data fig = [(town_col, T); ("Gender", G); ("Percentage", P)] /\
    List.length T = 2 * n /\ List.length G = 2 * n /\
    List.length P = 2 * n /\
    ((0 <= num_towns w)%Z ->
     n = Nat.min (Z.to_nat (num_towns w))
           (nrows (strip_columns (df example_env)))) /\
    forall i, i < n ->
      nth_error T i = nth_error towns i /\
      nth_error G i = Some (VStr women_col) /\
      nth_error P i = nth_error pw i /\
      nth_error T (n + i) = nth_error towns i /\
      nth_error G (n + i) = Some (VStr men_col) /\
      nth_error P (n + i) = nth_error pm i.
Proof.
  apply (gender_chart_rows (F:=float) default_widgets example_env).
  - reflexivity.
  - reflexivity.
  - reflexivity.
  - exact example_table_well_formed.
Defined.

Lemma scatter_chart_keeps_every_town_witness :
  let w := default_widgets in
  let towns := map (@VStr float) example_towns in
  let ys := map VNum example_elderly in
  exists e' fig xs,
    scatter_section w example_env = (Ok tt, e') /\
    page e' = page example_env ++ [fig] /\
    getitem (df e') avg_col = Ok xs /\
    (forall c, c <> avg_col ->
       getitem (df e') c = getitem (strip_columns (df example_env)) c) /\
    fig_kind fig = Scatter /\
    fig_data fig = [(town_col, towns); (avg_col, xs); (elderly_col, ys)] /\
    List.length xs = List.length towns /\
    (forall i b1 b2 b3,
       nth_error example_b1 i = Some b1 -> nth_error example_b2 i = Some b2 ->
       nth_error example_b3 i = Some b3 ->
       nth_error xs i = Some (VNum (weighted_mean b1 b2 b3))) /\
    List.length (fig_overlays fig) = List.length (selected_towns w).
Proof.
  apply (scatter_chart_keeps_every_town (F:=float) default_widgets
           example_env).
  - exact example_towns_hold_defaults.
  - reflexivity.
  - reflexivity.
  - reflexivity.
  - reflexivity.
  - reflexivity.
  - exact example_table_well_formed.
Defined.

Lemma pie_unknown_town_raises_witness :
  pie_data (@data float Binary64) "Town D" = Raise IndexError /\
  forall (w : Widgets) (e : Env float),
    submit_button w = true ->
    ~ In (selected_town w) ["Town A"; "Town B"; "Town C"] ->
    pie_section w e = (Raise IndexError, {| df := data; page := page e |}).
Proof.
  apply (pie_unknown_town_raises (F:=float) data
           [VStr "Town A"; VStr "Town B"; VStr "Town C"] "Town D").
  - reflexivity.
  - simpl. intuition discriminate.
Defined.

Lemma annotation_trace_counts_rows_witness :
  let names := ["Zahle"; "Aley"; "Zahle"] in
  let selected := ["Zahle"; "Beirut"; "Aley"] in
  exists fig' overlays,
    annotate example_repeated_plot example_fig selected = Ok fig' /\
    fig_overlays fig' = fig_overlays example_fig ++ overlays /\
    forall k t,
      nth_error selected k = Some t ->
      exists tr,
        nth_error overlays k = Some tr /\
        trace_text tr
        = repeat (@VStr float t) (count_occ string_dec names t) /\
        List.length (trace_x tr) = count_occ string_dec names t /\
        List.length (trace_y tr) = count_occ string_dec names t.
Proof.
  apply (annotation_trace_counts_rows (F:=float) example_repeated_plot
           example_fig ["Zahle"; "Aley"; "Zahle"]
           (map VNum [4; 5; 6]%float) (map VNum [10; 11; 12]%float)).
  - reflexivity.
  - reflexivity.
  - reflexivity.
  - repeat constructor.
Defined.

(** The repeated name gets a trace of two points, the absent one an empty
    trace. *)
Example annotation_repeated_example :
  exists fig',
    annotate example_repeated_plot example_fig ["Zahle"; "Beirut"] = Ok fig' /\
    fig_overlays fig'
    = [ {| trace_x := [VNum 4; VNum 6]%float;
           trace_y := [VNum 10; VNum 12]%float;
           trace_text := [VStr "Zahle"; VStr "Zahle"] |};
        {| trace_x := []; trace_y := []; trace_text := [] |} ].
Proof. eexists. split; reflexivity. Qed.

Lemma category_flow_on_sample_witness :
  let cs := [women_col; youth_col] in
  (incl cs [women_col; men_col] ->
   exists long,
     category_flow (@data float Binary64) cs = Ok long /\
     nrows long = 3 * List.length cs) /\
  (~ incl cs [women_col; men_col] ->
   exists x,
     (x = youth_col \/ x = elderly_col) /\
     category_flow (@data float Binary64) cs = Raise (KeyError x)).
Proof.
  apply (category_flow_on_sample (F:=float) [women_col; youth_col]).
  intros c I. simpl in *. intuition.
Defined.

Lemma run_displays_charts_then_raises_witness :
  fst (run example_table default_widgets) = Raise (KeyError bucket_1_3) /\
  df (snd (run example_table default_widgets)) = data /\
  map (@fig_kind float) (page (snd (run example_table default_widgets)))
  = if submit_button default_widgets then [Bar; Scatter; Pie; Bar]
    else [Bar; Scatter; Bar].
Proof.
  apply (run_displays_charts_then_raises (F:=float) example_table
           default_widgets (map VStr example_towns)
           [VNum 51; VNum 52; VNum 50; VNum 49; VNum 50.5; VNum 48]%float
           [VNum 49; VNum 48; VNum 50; VNum 51; VNum 49.5; VNum 52]%float
           (map VNum example_elderly) example_b1 example_b2 example_b3).
  - exact example_towns_hold_defaults.
  - reflexivity.
  - reflexivity.
  - reflexivity.
  - reflexivity.
  - reflexivity.
  - reflexivity.
  - reflexivity.
  - exact example_table_well_formed.
  - intros c I. exact I.
  - intros S. discriminate S.
Defined.

Lemma run_without_gender_columns_witness :
  exists c,
    In c [town_col; women_col; men_col] /\
    has_column (strip_columns example_df_plot) c = false /\
    run example_df_plot default_widgets
    = (Raise (KeyError c),
       {| df := strip_columns example_df_plot; page := [] |}).
Proof.
  apply (run_without_gender_columns (F:=float) example_df_plot
           default_widgets).
  reflexivity.
Defined.

Lemma age_chart_on_full_table_witness :
  let w := default_widgets in
  exists e' fig xs,
    age_section w example_env = (Ok tt, e') /\
    page e' = page example_env ++ [fig] /\
    getitem (df e') avg_col = Ok xs /\
    (forall c, c <> avg_col ->
       getitem (df e') c = getitem (df example_env) c) /\
    nrows (df e') = nrows (df example_env) /\
    fig_kind fig = Scatter /\ fig_data fig = df e' /\
    fig_x fig = avg_col /\ fig_y fig = age_group w /\
    fig_color fig = Some town_col /\ fig_overlays fig = [] /\
    forall i b1 b2 b3,
      nth_error example_b1 i = Some b1 -> nth_error example_b2 i = Some b2 ->
      nth_error example_b3 i = Some b3 ->
      nth_error xs i = Some (VNum (weighted_mean b1 b2 b3)).
Proof.
  apply (age_chart_on_full_table (F:=float) default_widgets example_env
           (map VStr example_towns)
           [VNum 20; VNum 21; VNum 22; VNum 19; VNum 18; VNum 23]%float).
  - reflexivity.
  - reflexivity.
  - reflexivity.
  - reflexivity.
  - reflexivity.
  - exact example_table_well_formed.
Defined.

Lemma run_without_default_town_witness :
  fst (run example_table_small default_widgets)
  = Raise StreamlitAPIException /\
  map (@fig_kind float) (page (snd (run example_table_small default_widgets)))
  = [Bar] /\
  getitem (df (snd (run example_table_small default_widgets))) avg_col
  = Ok (map VNum (derived_column [2; 1; 2] [0; 1; 2] [0; 2; 0])%float).
Proof.
  apply (run_without_default_town (F:=float) example_table_small
           default_widgets (map VStr ["Zahle"; "Aley"; "Jbeil"])
           (map VNum [51; 52; 50]%float) (map VNum [49; 48; 50]%float)).
  - intros A. apply Forall_inv in A. simpl in A.
    intuition discriminate.
  - reflexivity.
  - reflexivity.
  - reflexivity.
  - reflexivity.
  - reflexivity.
  - reflexivity.
  - repeat constructor.
Defined.
